(** * ipsw: [idev img sign] — personalize a Developer Disk Image

    A shallow embedding of [cmd/ipsw/cmd/idev/idev_img_sign.go] and the
    proofs of the properties its specification states.

    The command is a straight-line orchestration of external collaborators
    (the file system, the disk-image mounter, the plist parser, the signing
    service).  The collaborators are taken as a record of oracles; every call
    the command makes is appended, with its result, to a trace.  Go's [return]
    and [defer] are modelled by a small monad whose state carries the trace
    and the stack of deferred closures of the running function. *)

From Stdlib Require Import ZArith NArith List String Ascii DecimalString DecimalN.
From Stdlib Require Import Strings.Byte.
From stdpp Require Import gmap strings list fin_maps.

Open Scope string_scope.
Open Scope list_scope.

(** ** Go values *)

(** [uint64] flag values: no arithmetic is done on them, they are only
    compared with zero, formatted and stored. *)
Abbreviation uint64 := N (only parsing).

Abbreviation bytes := (list byte) (only parsing).

(** [time.Duration]: a count of nanoseconds. *)
Abbreviation Duration := Z (only parsing).

Definition Second : Duration := 1000000000%Z.

(** [os.FileMode] bits, as the octal literals of the source. *)
Definition perm_0750 : N := (7 * 64 + 5 * 8 + 0)%N.
Definition perm_0644 : N := (6 * 64 + 4 * 8 + 4)%N.

(** *** Errors

    A non-nil Go [error] value.  [wrapError] is what [fmt.Errorf] builds for
    a format with a [%w] verb (the finished message and the wrapped cause),
    [errorString] what it builds otherwise.  [PathError] is the error type of
    package [os]. *)
Inductive errval : Type :=
| ErrNotExist
| errorString (s : string)
| wrapError (msg : string) (err : errval)
| PathError (Op Path : string) (Err : errval).

(** The Go interface type [error]: [None] is [nil]. *)
Abbreviation error := (option errval) (only parsing).

#[global] Instance errval_eq_dec : EqDecision errval.
Proof. solve_decision. Defined.

(** The [Error() string] method. *)
Fixpoint Error (e : errval) : string :=
  match e with
  | ErrNotExist => "file does not exist"
  | errorString s => s
  | wrapError msg _ => msg
  | PathError op path err => op +:+ " " +:+ path +:+ ": " +:+ Error err
  end.

(** [errors.Is]: walk the [Unwrap] chain looking for [target]. *)
Fixpoint errors_Is_val (e target : errval) : bool :=
  if decide (e = target) then true
  else match e with
       | wrapError _ err => errors_Is_val err target
       | PathError _ _ err => errors_Is_val err target
       | _ => false
       end.

Definition errors_Is (err : error) (target : errval) : bool :=
  match err with
  | None => false
  | Some e => errors_Is_val e target
  end.

(** [fmt.Errorf(msg)] with no verb. *)
Definition fmt_Errorf (msg : string) : errval := errorString msg.

(** [fmt.Errorf(prefix + "%w", err)]: [prefix] is the formatted text that
    precedes the [%w] verb. *)
Definition fmt_Errorf_w (prefix : string) (err : errval) : errval :=
  wrapError (prefix +:+ Error err) err.

(** [%d] of an unsigned integer: its decimal rendering. *)
Definition fmt_d (n : uint64) : string :=
  NilEmpty.string_of_uint (N.to_uint n).

(** *** The identity map

    [map[string]any]: the dynamic values the program can store. *)
Inductive any : Type :=
| any_uint64 (n : uint64)
| any_string (s : string)
| any_bool (b : bool).

(** apex/log levels. *)
Inductive Level : Type :=
| DebugLevel | InfoLevel | WarnLevel | ErrorLevel | FatalLevel.

(** ** The monad of a running Go function *)

Section GoFunction.

(** The type of the observable calls. *)
Context {E : Type}.

(** The frame of a running function: what has happened so far and the
    closures registered with [defer], most recent first.  A deferred closure
    of this program returns nothing, so it is a transformer of the trace. *)
Record Frame : Type := {
  events : list E;
  defers : list (list E → list E);
}.

(** A statement either falls through to the next one with a value, or
    executes [return]. *)
Inductive outcome (A : Type) : Type :=
| Next (a : A)
| Return (r : error).

Definition M (A : Type) : Type := Frame → outcome A * Frame.

Definition ret {A} (a : A) : M A := fun s => (Next A a, s).

Definition bind {A B} (m : M A) (k : A → M B) : M B :=
  fun s =>
    match m s with
    | (Next _ a, s') => k a s'
    | (Return _ r, s') => (Return B r, s')
    end.

Definition return_ {A} (r : error) : M A := fun s => (Return A r, s).

(** Ask an oracle for its answer on the trace so far, and record the call. *)
Definition perform {A} (ask : list E → A) (ev : A → E) : M A :=
  fun s =>
    let a := ask (events s) in
    (Next A a, {| events := events s ++ [ev a]; defers := defers s |}).

(** A call with no result. *)
Definition emit (ev : E) : M unit :=
  fun s => (Next unit tt, {| events := events s ++ [ev]; defers := defers s |}).

(** [defer f]. *)
Definition defer (f : list E → list E) : M unit :=
  fun s => (Next unit tt, {| events := events s; defers := f :: defers s |}).

(** Run the deferred closures, most recent first. *)
Definition run_defers (ds : list (list E → list E)) (t : list E) : list E :=
  fold_left (fun t d => d t) ds t.

(** Call a function body on the trace [t]: run it in a fresh frame, then its
    deferred closures; the result is what the body returned. *)
Definition call {A} (body : M A) (t : list E) : outcome A * list E :=
  let '(o, s) := body {| events := t; defers := [] |} in
  (o, run_defers (defers s) (events s)).

(** A closure [func() { ... }] as a deferred action. *)
Definition closure (body : M unit) : list E → list E :=
  fun t => snd (call body t).

(** The value a function of result type [error] hands to its caller. *)
Definition returned (o : outcome unit) : error :=
  match o with
  | Return _ r => r
  | Next _ _ => None
  end.

End GoFunction.

Arguments Frame : clear implicits.
Arguments M : clear implicits.
Arguments Next {A} a.
Arguments Return {A} r.

Declare Scope go_scope.
Delimit Scope go_scope with go.
Notation "x <- m ;; k" := (bind m (fun x => k))
  (at level 100, m at next level, right associativity) : go_scope.
Notation "m ;; k" := (bind m (fun _ => k))
  (at level 100, right associativity) : go_scope.

(** ** The command *)

(** The values [viper] holds for the keys the command reads. *)
Record Viper : Type := {
  verbose : bool;
  color : bool;
  sign_xcode : string;
  sign_manifest : string;
  sign_board_id : uint64;
  sign_chip_id : uint64;
  sign_ecid : uint64;
  sign_nonce : string;
  sign_output : string;
  sign_proxy : string;
  sign_insecure : bool;
}.

(** What the user wrote on the command line: [None] for a flag that was not
    given.  [verbose] and [color] belong to the root command. *)
Record CommandLine : Type := {
  flag_verbose : bool;
  flag_color : bool;
  flag_xcode : option string;
  flag_manifest : option string;
  flag_board_id : option uint64;
  flag_chip_id : option uint64;
  flag_ecid : option uint64;
  flag_nonce : option string;
  flag_proxy : option string;
  flag_insecure : option bool;
  flag_output : option string;
}.

(** [init]: the flags with their default values, bound to the viper keys.
    A flag that was not given reads as its default.  (Values coming from a
    configuration file or the environment are not modelled.) *)
Definition init (c : CommandLine) : Viper :=
  {| verbose := flag_verbose c;
     color := flag_color c;
     sign_xcode := default "/Applications/Xcode.app" (flag_xcode c);
     sign_manifest := default "" (flag_manifest c);
     sign_board_id := default 0%N (flag_board_id c);
     sign_chip_id := default 0%N (flag_chip_id c);
     sign_ecid := default 0%N (flag_ecid c);
     sign_nonce := default "" (flag_nonce c);
     sign_output := default "" (flag_output c);
     sign_proxy := default "" (flag_proxy c);
     sign_insecure := default false (flag_insecure c) |}.

Section Sign.

(** The parsed manifest is opaque to the command: it is only moved from the
    parser to the signing service. *)
Context {BuildManifest : Type}.

(** [tss.PersonalConfig]. *)
Record PersonalConfig : Type := {
  Proxy : string;
  Insecure : bool;
  PersonlID : gmap string any;
  BuildManifest_ : option BuildManifest;   (* a [*plist.BuildManifest] *)
  Nonce : string;
}.

(** *** Observable calls

    One constructor per call that leaves the function, with the arguments
    passed and the values returned. *)
Inductive Event : Type :=
| EvSetLevel (lvl : Level)
| EvNoColor (b : bool)
| EvLog (lvl : Level) (indent : nat) (msg : string)
| EvStat (name : string) (err : error)
| EvMountDMG (path : string) (r : string * bool * error)
| EvUnmount (mountPoint : string) (force : bool) (err : error)
| EvSleep (d : Duration)
| EvReadFile (name : string) (r : bytes * error)
| EvPersonalize (cfg : PersonalConfig) (r : bytes * error)
| EvMkdirAll (path : string) (perm : N) (err : error)
| EvWriteFile (name : string) (data : bytes) (perm : N) (err : error).

(** *** The collaborators

    What each external function returns may depend on everything that
    happened before the call, so each oracle receives the trace so far.
    [filepath.Join] and the plist parser are pure. *)
Record Sys : Type := {
  filepath_Join : list string → string;
  os_Stat : list Event → string → error;
  utils_MountDMG : list Event → string → string * bool * error;
  utils_Unmount : list Event → string → bool → error;
  os_ReadFile : list Event → string → bytes * error;
  plist_ParseBuildManifest : bytes → option BuildManifest * error;
  tss_Personalize : list Event → PersonalConfig → bytes * error;
  os_MkdirAll : list Event → string → N → error;
  os_WriteFile : list Event → string → bytes → N → error;
}.

(** The same system with another unmount behaviour. *)
Definition with_Unmount (u : list Event → string → bool → error) (w : Sys) : Sys :=
  {| filepath_Join := filepath_Join w;
     os_Stat := os_Stat w;
     utils_MountDMG := utils_MountDMG w;
     utils_Unmount := u;
     os_ReadFile := os_ReadFile w;
     plist_ParseBuildManifest := plist_ParseBuildManifest w;
     tss_Personalize := tss_Personalize w;
     os_MkdirAll := os_MkdirAll w;
     os_WriteFile := os_WriteFile w |}.

Open Scope go_scope.

(** [utils.Indent(f, n)(msg)]: the message goes to the logger at the level of
    [f], indented by [n]. *)
Definition utils_Indent (lvl : Level) (n : nat) (msg : string) : M Event unit :=
  emit (EvLog lvl n msg).

(** [log.Infof], [log.Errorf]: no indentation. *)
Definition log_Infof (msg : string) : M Event unit := emit (EvLog InfoLevel 0 msg).
Definition log_Errorf (msg : string) : M Event unit := emit (EvLog ErrorLevel 0 msg).

Definition time_Sleep (d : Duration) : M Event unit := emit (EvSleep d).

(** Modelled from the spec: [utils.Retry] (package [internal/utils], not part
    of the sources at hand).  "A generic bounded-retry helper taking attempt
    count, delay, and an operation returning success/failure": the operation
    is attempted up to [attempts] times, "with a fixed inter-attempt delay",
    stopping at the first success; when every attempt failed the failure of
    the last one is the result. *)
Fixpoint retry_loop (attempts : nat) (first : bool) (sleep : Duration)
    (f : M Event error) (last : error) : M Event error :=
  match attempts with
  | O => ret last
  | S n =>
      (if first then ret tt else time_Sleep sleep);;
      err <- f;;
      match err with
      | None => ret None
      | Some _ => retry_loop n false sleep f err
      end
  end.

Definition utils_Retry (attempts : nat) (sleep : Duration) (f : M Event error)
    : M Event error :=
  retry_loop attempts true sleep f None.

(** The closure deferred at lines 108-115. *)
Definition unmount_deferred (w : Sys) (dmgPath mountPoint : string) : M Event unit :=
  utils_Indent DebugLevel 2 ("Unmounting " +:+ dmgPath);;
  err <- utils_Retry 3 (2 * Second)
           (perform (fun t => utils_Unmount w t mountPoint false)
                    (EvUnmount mountPoint false));;
  match err with
  | Some e =>
      log_Errorf ("failed to unmount " +:+ dmgPath +:+ " at " +:+ mountPoint
                  +:+ ": " +:+ Error e)
  | None => ret tt
  end.

(** The request handed to [tss.Personalize] (lines 129-139). *)
Definition personal_config (v : Viper) (buildManifest : option BuildManifest)
    : PersonalConfig :=
  {| Proxy := sign_proxy v;
     Insecure := sign_insecure v;
     PersonlID :=
       {[ "BoardId" := any_uint64 (sign_board_id v);
          "ChipID" := any_uint64 (sign_chip_id v);
          "UniqueChipID" := any_uint64 (sign_ecid v) ]};
     BuildManifest_ := buildManifest;
     Nonce := sign_nonce v |}.

(** The body of [idevImgSignCmd.RunE] (lines 71-158). *)
Definition RunE_body (w : Sys) (v : Viper) : M Event unit :=
  (if verbose v then emit (EvSetLevel DebugLevel) else ret tt);;
  emit (EvNoColor (negb (color v)));;
  (* flags *)
  let xcode := sign_xcode v in
  let manifestPath := sign_manifest v in
  let boardID := sign_board_id v in
  let chipID := sign_chip_id v in
  let ecid := sign_ecid v in
  let nonce := sign_nonce v in
  let output := sign_output v in
  (* verify flags *)
  (if decide (xcode ≠ "" ∧ manifestPath ≠ "") then
     return_ (Some (fmt_Errorf "cannot specify both --xcode and --manifest"))
   else if decide (xcode = "" ∧ manifestPath = "") then
     return_ (Some (fmt_Errorf "must specify either --xcode or --manifest"))
   else if decide (boardID = 0%N ∨ chipID = 0%N ∨ ecid = 0%N ∨ nonce = "") then
     return_ (Some (fmt_Errorf
       "must specify --board-id, --chip-id, --ecid AND --nonce"))
   else ret tt);;
  manifestPath <-
    (if decide (xcode ≠ "") then
       let dmgPath :=
         filepath_Join w [xcode; "/Contents/Resources/CoreDeviceDDIs/iOS_DDI.dmg"] in
       err <- perform (fun t => os_Stat w t dmgPath) (EvStat dmgPath);;
       (if errors_Is err ErrNotExist then
          return_ (Some (fmt_Errorf
            ("failed to find iOS_DDI.dmg in '" +:+ xcode
             +:+ "' (install NEW XCode.app or Xcode-beta.app)")))
        else ret tt);;
       utils_Indent InfoLevel 2 ("Mounting " +:+ dmgPath);;
       r <- perform (fun t => utils_MountDMG w t dmgPath) (EvMountDMG dmgPath);;
       let '(mountPoint, alreadyMounted, err) := r in
       match err with
       | Some e => return_ (Some (fmt_Errorf_w "failed to mount iOS_DDI.dmg: " e))
       | None =>
           (if alreadyMounted then
              utils_Indent InfoLevel 3 (dmgPath +:+ " already mounted")
            else
              defer (closure (unmount_deferred w dmgPath mountPoint)));;
           ret (filepath_Join w [mountPoint; "Restore/BuildManifest.plist"])
       end
     else ret manifestPath);;
  r <- perform (fun t => os_ReadFile w t manifestPath) (EvReadFile manifestPath);;
  let '(manifestData, err) := r in
  match err with
  | Some e => return_ (Some (fmt_Errorf_w "failed to read BuildManifest.plist: " e))
  | None =>
  let '(buildManifest, err) := plist_ParseBuildManifest w manifestData in
  match err with
  | Some e => return_ (Some (fmt_Errorf_w "failed to parse BuildManifest.plist: " e))
  | None =>
  let cfg := personal_config v buildManifest in
  r <- perform (fun t => tss_Personalize w t cfg) (EvPersonalize cfg);;
  let '(sigData, err) := r in
  match err with
  | Some e => return_ (Some (fmt_Errorf_w "failed to personalize DDI: " e))
  | None =>
  let fname :=
    fmt_d boardID +:+ "." +:+ fmt_d chipID +:+ "." +:+ fmt_d ecid +:+ "."
    +:+ "personalized.signature" in
  fname <-
    (if decide (output ≠ "") then
       err <- perform (fun t => os_MkdirAll w t output perm_0750)
                      (EvMkdirAll output perm_0750);;
       match err with
       | Some e =>
           return_ (Some (fmt_Errorf_w
             ("failed to create output folder '" +:+ output +:+ "': ") e))
       | None => ret (filepath_Join w [output; fname])
       end
     else ret fname);;
  log_Infof ("Writing signature to " +:+ fname);;
  err <- perform (fun t => os_WriteFile w t fname sigData perm_0644)
                 (EvWriteFile fname sigData perm_0644);;
  match err with
  | Some e =>
      return_ (Some (fmt_Errorf_w
        ("failed to write signature to " +:+ output +:+ ": ") e))
  | None => return_ None
  end
  end end end.

(** One invocation of the command: the error it returns to cobra and
    everything it did, deferred closures included. *)
Definition RunE (w : Sys) (v : Viper) : error * list Event :=
  let '(o, t) := call (RunE_body w v) [] in (returned o, t).

End Sign.

Arguments PersonalConfig : clear implicits.
Arguments Event : clear implicits.
Arguments Sys : clear implicits.

(** ** Vocabulary of the properties *)

(** What the command does before it looks at its flags (lines 73-76). *)
Definition preamble {BM} (v : Viper) : list (Event BM) :=
  (if verbose v then [EvSetLevel DebugLevel] else [])
  ++ [EvNoColor (negb (color v))].

(** The only message the command logs at debug level opens the release
    step: counting them counts the runs of the deferred closure. *)
Definition release_steps {BM} (t : list (Event BM)) : nat :=
  length (List.filter
    (fun e => match e with EvLog DebugLevel _ _ => true | _ => false end) t).

(** The number of unmount calls made so far. *)
Definition unmount_calls {BM} (t : list (Event BM)) : nat :=
  length (List.filter (fun e => match e with EvUnmount _ _ _ => true | _ => false end) t).

(** Calls that reach the file system, the mounter or the network. *)
Definition touches_outside {BM} (e : Event BM) : bool :=
  match e with
  | EvSetLevel _ | EvNoColor _ | EvLog _ _ _ | EvSleep _ => false
  | _ => true
  end.

Definition mount_attempts {BM} (t : list (Event BM)) : nat :=
  length (List.filter (fun e => match e with EvMountDMG _ _ => true | _ => false end) t).

(** The retry loop as it shows in a trace: the attempts with their outcome
    and the pauses with their length. *)
Inductive Attempt : Type :=
| Try (ok : bool)
| Wait (d : Z).

#[global] Instance Attempt_eq_dec : EqDecision Attempt.
Proof. solve_decision. Defined.

Definition retry_view {BM} (t : list (Event BM)) : list Attempt :=
  omap (fun e => match e with
                 | EvUnmount _ _ err =>
                     Some (Try (match err with None => true | Some _ => false end))
                 | EvSleep d => Some (Wait d)
                 | _ => None
                 end) t.

(** The three errors of the validation of the flags (lines 87-93). *)
Definition err_both : errval :=
  fmt_Errorf "cannot specify both --xcode and --manifest".
Definition err_neither : errval :=
  fmt_Errorf "must specify either --xcode or --manifest".
Definition err_identity : errval :=
  fmt_Errorf "must specify --board-id, --chip-id, --ecid AND --nonce".

Definition ConfigurationError (e : errval) : Prop :=
  e = err_both ∨ e = err_neither ∨ e = err_identity.

(** [needle] occurs in [hay]. *)
Fixpoint mentions (needle hay : string) : bool :=
  String.prefix needle hay
  || match hay with
     | EmptyString => false
     | String _ hay' => mentions needle hay'
     end.

Definition names_required_flags (e : errval) : bool :=
  forallb (fun flag => mentions flag (Error e))
    ["--board-id"; "--chip-id"; "--ecid"; "--nonce"].

Definition identity_missing (v : Viper) : Prop :=
  sign_board_id v = 0%N ∨ sign_chip_id v = 0%N ∨ sign_ecid v = 0%N
  ∨ sign_nonce v = "".

(** The name of the signature file (line 144). *)
Definition signature_name (v : Viper) : string :=
  fmt_d (sign_board_id v) +:+ "." +:+ fmt_d (sign_chip_id v) +:+ "."
  +:+ fmt_d (sign_ecid v) +:+ ".personalized.signature".

Definition iOS_DDI {BM} (w : Sys BM) (xcode : string) : string :=
  filepath_Join w [xcode; "/Contents/Resources/CoreDeviceDDIs/iOS_DDI.dmg"].

(** ** The paths through the command

    Every run of [RunE] follows one of the paths below.  [Tail] is the part
    common to both sources of the manifest (lines 120-157), started on the
    trace [t0] with the manifest at [p]; it relates the error returned and
    the trace at the [return] statement. *)
Section Paths.

Context {BM : Type} (w : Sys BM) (v : Viper).

Definition read_failed (e : errval) : errval :=
  fmt_Errorf_w "failed to read BuildManifest.plist: " e.
Definition parse_failed (e : errval) : errval :=
  fmt_Errorf_w "failed to parse BuildManifest.plist: " e.
Definition personalize_failed (e : errval) : errval :=
  fmt_Errorf_w "failed to personalize DDI: " e.
Definition mkdir_failed (e : errval) : errval :=
  fmt_Errorf_w ("failed to create output folder '" +:+ sign_output v +:+ "': ") e.
Definition write_failed (e : errval) : errval :=
  fmt_Errorf_w ("failed to write signature to " +:+ sign_output v +:+ ": ") e.
Definition not_found : errval :=
  fmt_Errorf ("failed to find iOS_DDI.dmg in '" +:+ sign_xcode v
              +:+ "' (install NEW XCode.app or Xcode-beta.app)").
Definition mount_failed (e : errval) : errval :=
  fmt_Errorf_w "failed to mount iOS_DDI.dmg: " e.

Inductive Tail (t0 : list (Event BM)) (p : string)
    : error → list (Event BM) → Prop :=
| tail_read data e :
    os_ReadFile w t0 p = (data, Some e) →
    Tail t0 p (Some (read_failed e)) (t0 ++ [EvReadFile p (data, Some e)])
| tail_parse data bm e :
    os_ReadFile w t0 p = (data, None) →
    plist_ParseBuildManifest w data = (bm, Some e) →
    Tail t0 p (Some (parse_failed e)) (t0 ++ [EvReadFile p (data, None)])
| tail_personalize data bm sig e :
    os_ReadFile w t0 p = (data, None) →
    plist_ParseBuildManifest w data = (bm, None) →
    let t1 := t0 ++ [EvReadFile p (data, None)] in
    let cfg := personal_config v bm in
    tss_Personalize w t1 cfg = (sig, Some e) →
    Tail t0 p (Some (personalize_failed e)) (t1 ++ [EvPersonalize cfg (sig, Some e)])
| tail_mkdir data bm sig e :
    os_ReadFile w t0 p = (data, None) →
    plist_ParseBuildManifest w data = (bm, None) →
    let t1 := t0 ++ [EvReadFile p (data, None)] in
    let cfg := personal_config v bm in
    tss_Personalize w t1 cfg = (sig, None) →
    let t2 := t1 ++ [EvPersonalize cfg (sig, None)] in
    sign_output v ≠ "" →
    os_MkdirAll w t2 (sign_output v) perm_0750 = Some e →
    Tail t0 p (Some (mkdir_failed e))
      (t2 ++ [EvMkdirAll (sign_output v) perm_0750 (Some e)])
| tail_write_plain data bm sig werr :
    os_ReadFile w t0 p = (data, None) →
    plist_ParseBuildManifest w data = (bm, None) →
    let t1 := t0 ++ [EvReadFile p (data, None)] in
    let cfg := personal_config v bm in
    tss_Personalize w t1 cfg = (sig, None) →
    let t2 := t1 ++ [EvPersonalize cfg (sig, None)] in
    sign_output v = "" →
    let name := signature_name v in
    let t3 := t2 ++ [EvLog InfoLevel 0 ("Writing signature to " +:+ name)] in
    os_WriteFile w t3 name sig perm_0644 = werr →
    Tail t0 p (write_failed <$> werr)
      (t3 ++ [EvWriteFile name sig perm_0644 werr])
| tail_write_nested data bm sig werr :
    os_ReadFile w t0 p = (data, None) →
    plist_ParseBuildManifest w data = (bm, None) →
    let t1 := t0 ++ [EvReadFile p (data, None)] in
    let cfg := personal_config v bm in
    tss_Personalize w t1 cfg = (sig, None) →
    let t2 := t1 ++ [EvPersonalize cfg (sig, None)] in
    sign_output v ≠ "" →
    os_MkdirAll w t2 (sign_output v) perm_0750 = None →
    let name := filepath_Join w [sign_output v; signature_name v] in
    let t3 := t2 ++ [EvMkdirAll (sign_output v) perm_0750 None;
                     EvLog InfoLevel 0 ("Writing signature to " +:+ name)] in
    os_WriteFile w t3 name sig perm_0644 = werr →
    Tail t0 p (write_failed <$> werr)
      (t3 ++ [EvWriteFile name sig perm_0644 werr]).

Inductive Runs : error → list (Event BM) → Prop :=
| run_both :
    sign_xcode v ≠ "" → sign_manifest v ≠ "" →
    Runs (Some err_both) (preamble v)
| run_neither :
    sign_xcode v = "" → sign_manifest v = "" →
    Runs (Some err_neither) (preamble v)
| run_identity :
    (sign_xcode v = "" ↔ sign_manifest v ≠ "") →
    identity_missing v →
    Runs (Some err_identity) (preamble v)
| run_manifest res t :
    sign_xcode v = "" → sign_manifest v ≠ "" → ¬ identity_missing v →
    Tail (preamble v) (sign_manifest v) res t →
    Runs res t
| run_not_found st :
    sign_xcode v ≠ "" → sign_manifest v = "" → ¬ identity_missing v →
    let dmg := iOS_DDI w (sign_xcode v) in
    os_Stat w (preamble v) dmg = st →
    errors_Is st ErrNotExist = true →
    Runs (Some not_found) (preamble v ++ [EvStat dmg st])
| run_mount_failed st mp am e :
    sign_xcode v ≠ "" → sign_manifest v = "" → ¬ identity_missing v →
    let dmg := iOS_DDI w (sign_xcode v) in
    os_Stat w (preamble v) dmg = st →
    errors_Is st ErrNotExist = false →
    let t1 := preamble v ++ [EvStat dmg st; EvLog InfoLevel 2 ("Mounting " +:+ dmg)] in
    utils_MountDMG w t1 dmg = (mp, am, Some e) →
    Runs (Some (mount_failed e)) (t1 ++ [EvMountDMG dmg (mp, am, Some e)])
| run_already_mounted st mp res t :
    sign_xcode v ≠ "" → sign_manifest v = "" → ¬ identity_missing v →
    let dmg := iOS_DDI w (sign_xcode v) in
    os_Stat w (preamble v) dmg = st →
    errors_Is st ErrNotExist = false →
    let t1 := preamble v ++ [EvStat dmg st; EvLog InfoLevel 2 ("Mounting " +:+ dmg)] in
    utils_MountDMG w t1 dmg = (mp, true, None) →
    Tail (t1 ++ [EvMountDMG dmg (mp, true, None);
                 EvLog InfoLevel 3 (dmg +:+ " already mounted")])
         (filepath_Join w [mp; "Restore/BuildManifest.plist"]) res t →
    Runs res t
| run_acquired st mp res t :
    sign_xcode v ≠ "" → sign_manifest v = "" → ¬ identity_missing v →
    let dmg := iOS_DDI w (sign_xcode v) in
    os_Stat w (preamble v) dmg = st →
    errors_Is st ErrNotExist = false →
    let t1 := preamble v ++ [EvStat dmg st; EvLog InfoLevel 2 ("Mounting " +:+ dmg)] in
    utils_MountDMG w t1 dmg = (mp, false, None) →
    Tail (t1 ++ [EvMountDMG dmg (mp, false, None)])
         (filepath_Join w [mp; "Restore/BuildManifest.plist"]) res t →
    Runs res (closure (unmount_deferred w dmg mp) t).

End Paths.

(** ** A concrete system, for running the command

    [filepath.Join] as package [path/filepath] documents it on Unix: the
    elements from the first non-empty one on are joined with the separator
    and the result is cleaned lexically (no empty or [.] element, [..]
    cancels the element before it, no trailing separator). *)
Module Unix.

Definition Separator : ascii := "/"%char.

Fixpoint split (s : string) : list string :=
  match s with
  | EmptyString => [""]
  | String c s' =>
      if decide (c = Separator) then "" :: split s'
      else match split s' with
           | x :: r => String c x :: r
           | [] => [String c ""]
           end
  end.

Fixpoint strings_Join (elems : list string) (sep : string) : string :=
  match elems with
  | [] => ""
  | [x] => x
  | x :: r => x +:+ sep +:+ strings_Join r sep
  end.

(** One element of the path against the elements kept so far (innermost
    first). *)
Definition clean_step (rooted : bool) (kept : list string) (el : string)
    : list string :=
  if decide (el = "" ∨ el = ".") then kept
  else if decide (el = "..") then
    match kept with
    | top :: below => if decide (top = "..") then el :: kept else below
    | [] => if rooted then kept else [el]
    end
  else el :: kept.

Definition Clean (path : string) : string :=
  match path with
  | EmptyString => "."
  | String c _ =>
      let rooted := bool_decide (c = Separator) in
      let kept := fold_left (clean_step rooted) (split path) [] in
      let out := (if rooted then "/" else "") +:+ strings_Join (rev kept) "/" in
      if decide (out = "") then "." else out
  end.

Fixpoint Join (elem : list string) : string :=
  match elem with
  | [] => ""
  | e :: rest =>
      if decide (e = "") then Join rest else Clean (strings_Join elem "/")
  end.

End Unix.

(** A system scripted by the answers it gives; the manifest is kept as the
    text of the file.  [sc_unmount n] answers the unmount attempt number [n]
    (from 0). *)
Record Scenario : Type := {
  sc_stat : error;
  sc_mount : string * bool * error;
  sc_unmount : nat → error;
  sc_read : bytes * error;
  sc_parse : error;
  sc_personalize : bytes * error;
  sc_mkdir : error;
  sc_write : error;
}.

Definition scripted (sc : Scenario) : Sys bytes :=
  {| filepath_Join := Unix.Join;
     os_Stat := fun _ _ => sc_stat sc;
     utils_MountDMG := fun _ _ => sc_mount sc;
     utils_Unmount := fun t _ _ => sc_unmount sc (unmount_calls t);
     os_ReadFile := fun _ _ => sc_read sc;
     plist_ParseBuildManifest := fun data =>
       match sc_parse sc with
       | None => (Some data, None)
       | Some e => (None, Some e)
       end;
     tss_Personalize := fun _ _ => sc_personalize sc;
     os_MkdirAll := fun _ _ _ => sc_mkdir sc;
     os_WriteFile := fun _ _ _ _ => sc_write sc |}.

(** Everything succeeds; the image gets mounted by this invocation. *)
Definition all_fine : Scenario :=
  {| sc_stat := None;
     sc_mount := ("/private/tmp/ddi", false, None);
     sc_unmount := fun _ => None;
     sc_read := ([x3c; x3f], None);
     sc_parse := None;
     sc_personalize := ([x01; x02; x03], None);
     sc_mkdir := None;
     sc_write := None |}.

Definition EBUSY : errval := errorString "resource busy".
Definition EACCES : errval := errorString "permission denied".

(** The manifest inside the mounted image cannot be read. *)
Definition read_fails : Scenario :=
  {| sc_stat := None;
     sc_mount := ("/private/tmp/ddi", false, None);
     sc_unmount := fun _ => None;
     sc_read := ([], Some EACCES);
     sc_parse := None;
     sc_personalize := ([x01; x02; x03], None);
     sc_mkdir := None;
     sc_write := None |}.

(** Xcode has no disk image. *)
Definition image_absent : Scenario :=
  {| sc_stat := Some (PathError "stat"
       "/Applications/Xcode.app/Contents/Resources/CoreDeviceDDIs/iOS_DDI.dmg"
       ErrNotExist);
     sc_mount := ("/private/tmp/ddi", false, None);
     sc_unmount := fun _ => None;
     sc_read := ([x3c; x3f], None);
     sc_parse := None;
     sc_personalize := ([x01; x02; x03], None);
     sc_mkdir := None;
     sc_write := None |}.

(** The image was mounted before the command started. *)
Definition already_mounted : Scenario :=
  {| sc_stat := None;
     sc_mount := ("/Volumes/iOS_DDI", true, None);
     sc_unmount := fun _ => None;
     sc_read := ([x3c; x3f], None);
     sc_parse := None;
     sc_personalize := ([x01; x02; x03], None);
     sc_mkdir := None;
     sc_write := None |}.

(** The volume stays busy: every unmount fails. *)
Definition unmount_busy : Scenario :=
  {| sc_stat := None;
     sc_mount := ("/private/tmp/ddi", false, None);
     sc_unmount := fun _ => Some EBUSY;
     sc_read := ([x3c; x3f], None);
     sc_parse := None;
     sc_personalize := ([x01; x02; x03], None);
     sc_mkdir := None;
     sc_write := None |}.

(** The values of the flags for a device 100/200/300, given the two sources
    of the manifest, the board id and the output directory. *)
Definition flags_for (xcode manifest : string) (boardID : uint64)
    (output : string) : Viper :=
  {| verbose := false;
     color := true;
     sign_xcode := xcode;
     sign_manifest := manifest;
     sign_board_id := boardID;
     sign_chip_id := 200;
     sign_ecid := 300;
     sign_nonce := "c0ffee";
     sign_output := output;
     sign_proxy := "";
     sign_insecure := false |}.

Definition from_xcode : Viper := flags_for "/Applications/Xcode.app" "" 100 "".
Definition from_manifest : Viper := flags_for "" "BuildManifest.plist" 100 "".
Definition into_out : Viper := flags_for "" "BuildManifest.plist" 100 "out".
Definition both_sources : Viper :=
  flags_for "/Applications/Xcode.app" "BuildManifest.plist" 100 "".
Definition no_board_id : Viper := flags_for "" "BuildManifest.plist" 0 "".
(** The board id is missing and [--manifest] is given next to the default
    value of [--xcode]. *)
Definition no_board_id_both_sources : Viper :=
  flags_for "/Applications/Xcode.app" "BuildManifest.plist" 0 "".


(** ** Vocabulary of the pipeline *)

(** Calls about the disk image of Xcode. *)
Definition about_image {BM} (e : Event BM) : bool :=
  match e with
  | EvStat _ _ | EvMountDMG _ _ | EvUnmount _ _ _ | EvSleep _ => true
  | _ => false
  end.

(** The set-up of the logger. *)
Definition is_setup {BM} (e : Event BM) : bool :=
  match e with
  | EvSetLevel _ | EvNoColor _ => true
  | _ => false
  end.

(** The stage of a call of the body, in the order of the source; the calls of
    the deferred closure and the log messages have none. *)
Definition stage {BM} (e : Event BM) : option nat :=
  match e with
  | EvStat _ _ => Some 1
  | EvMountDMG _ _ => Some 2
  | EvReadFile _ _ => Some 3
  | EvPersonalize _ _ => Some 4
  | EvMkdirAll _ _ _ => Some 5
  | EvWriteFile _ _ _ _ => Some 6
  | _ => None
  end.

Fixpoint increasing (l : list nat) : bool :=
  match l with
  | a :: r => match r with
              | b :: _ => (a <? b)%nat && increasing r
              | [] => true
              end
  | [] => true
  end.

(** The error of a call of the body that failed.  ([Stat] is not among
    them: its error is only tested, never returned.) *)
Definition failure_of {BM} (e : Event BM) : error :=
  match e with
  | EvMountDMG _ (_, _, err) => err
  | EvReadFile _ (_, err) => err
  | EvPersonalize _ (_, err) => err
  | EvMkdirAll _ _ err => err
  | EvWriteFile _ _ _ err => err
  | _ => None
  end.

(** No call of the body follows one that failed. *)
Fixpoint stops_at_failure {BM} (t : list (Event BM)) : bool :=
  match t with
  | [] => true
  | e :: t' =>
      match failure_of e with
      | Some _ => forallb (fun x => match stage x with Some _ => false | None => true end) t'
      | None => stops_at_failure t'
      end
  end.

(** The mounter is out of order. *)
Definition mount_fails : Scenario :=
  {| sc_stat := None;
     sc_mount := ("", false, Some EBUSY);
     sc_unmount := fun _ => None;
     sc_read := ([x3c; x3f], None);
     sc_parse := None;
     sc_personalize := ([x01; x02; x03], None);
     sc_mkdir := None;
     sc_write := None |}.

(** The manifest is not a property list. *)
Definition parse_fails : Scenario :=
  {| sc_stat := None;
     sc_mount := ("/private/tmp/ddi", false, None);
     sc_unmount := fun _ => None;
     sc_read := ([x3c; x3f], None);
     sc_parse := Some (errorString "unexpected EOF");
     sc_personalize := ([x01; x02; x03], None);
     sc_mkdir := None;
     sc_write := None |}.

(** The output directory cannot be created. *)
Definition mkdir_fails : Scenario :=
  {| sc_stat := None;
     sc_mount := ("/private/tmp/ddi", false, None);
     sc_unmount := fun _ => None;
     sc_read := ([x3c; x3f], None);
     sc_parse := None;
     sc_personalize := ([x01; x02; x03], None);
     sc_mkdir := Some EACCES;
     sc_write := None |}.

(** The disk image is there but cannot be examined. *)
Definition stat_denied : Scenario :=
  {| sc_stat := Some (PathError "stat"
       "/Applications/Xcode.app/Contents/Resources/CoreDeviceDDIs/iOS_DDI.dmg"
       EACCES);
     sc_mount := ("/private/tmp/ddi", false, None);
     sc_unmount := fun _ => None;
     sc_read := ([x3c; x3f], None);
     sc_parse := None;
     sc_personalize := ([x01; x02; x03], None);
     sc_mkdir := None;
     sc_write := None |}.

(** A command line with [--manifest] and the identity, without [--xcode]. *)
Definition manifest_only : CommandLine :=
  {| flag_verbose := false;
     flag_color := true;
     flag_xcode := None;
     flag_manifest := Some "BuildManifest.plist";
     flag_board_id := Some 100%N;
     flag_chip_id := Some 200%N;
     flag_ecid := Some 300%N;
     flag_nonce := Some "c0ffee";
     flag_proxy := None;
     flag_insecure := None;
     flag_output := None |}.

(** The same with [--xcode ""]. *)
Definition manifest_without_xcode : CommandLine :=
  {| flag_verbose := false;
     flag_color := true;
     flag_xcode := Some "";
     flag_manifest := Some "BuildManifest.plist";
     flag_board_id := Some 100%N;
     flag_chip_id := Some 200%N;
     flag_ecid := Some 300%N;
     flag_nonce := Some "c0ffee";
     flag_proxy := None;
     flag_insecure := None;
     flag_output := None |}.

(** A command line without [--nonce]. *)
Definition no_nonce : CommandLine :=
  {| flag_verbose := false;
     flag_color := true;
     flag_xcode := None;
     flag_manifest := None;
     flag_board_id := Some 100%N;
     flag_chip_id := Some 200%N;
     flag_ecid := Some 300%N;
     flag_nonce := None;
     flag_proxy := None;
     flag_insecure := None;
     flag_output := None |}.

(** The calls of the release step after its opening message: the unmount
    attempts, the pauses between them and the message of a failed release. *)
Definition is_release_call {BM} (e : Event BM) : bool :=
  match e with
  | EvUnmount _ _ _ | EvSleep _ | EvLog ErrorLevel _ _ => true
  | _ => false
  end.

(** [ENOTDIR]: a component of the path is not a directory. *)
Definition ENOTDIR : errval := errorString "not a directory".

(** What [Stat] answers for a path at which there is no file: [ENOENT], the
    only one of the two that is [os.ErrNotExist], or [ENOTDIR]. *)
Definition answers_absent (err : error) : Prop :=
  errors_Is err ErrNotExist = true ∨ errors_Is err ENOTDIR = true.

(** [Xcode.app] is a plain file: the disk image is absent, and [Stat] says
    so with [ENOTDIR]; the mounter then finds nothing to attach. *)
Definition xcode_is_a_file : Scenario :=
  {| sc_stat := Some (PathError "stat"
       "/Applications/Xcode.app/Contents/Resources/CoreDeviceDDIs/iOS_DDI.dmg"
       ENOTDIR);
     sc_mount := ("", false, Some (errorString "hdiutil: attach failed"));
     sc_unmount := fun _ => None;
     sc_read := ([x3c; x3f], None);
     sc_parse := None;
     sc_personalize := ([x01; x02; x03], None);
     sc_mkdir := None;
     sc_write := None |}.

(** The signature file cannot be created in the current directory: the
    error of [os.WriteFile] is the [*PathError] of the failed open. *)
Definition write_denied : Scenario :=
  {| sc_stat := None;
     sc_mount := ("/private/tmp/ddi", false, None);
     sc_unmount := fun _ => None;
     sc_read := ([x3c; x3f], None);
     sc_parse := None;
     sc_personalize := ([x01; x02; x03], None);
     sc_mkdir := None;
     sc_write := Some (PathError "open" "100.200.300.personalized.signature"
                         EACCES) |}.

(** * Properties *)

(** ** Running the concrete system *)

Example Join_examples :
  Unix.Join ["a"; "b"] = "a/b"
  ∧ Unix.Join ["a/"; "/b"] = "a/b"
  ∧ Unix.Join [""; "b"] = "b"
  ∧ Unix.Join ["a"; ""] = "a"
  ∧ Unix.Join ["a/b/../c/."; "d/"] = "a/c/d"
  ∧ Unix.Join ["a/../.."; "b"] = "../b"
  ∧ Unix.Join ["/.."; "a"] = "/a"
  ∧ Unix.Join [""; ""] = ""
  ∧ Unix.Join ["/Applications/Xcode.app";
               "/Contents/Resources/CoreDeviceDDIs/iOS_DDI.dmg"]
    = "/Applications/Xcode.app/Contents/Resources/CoreDeviceDDIs/iOS_DDI.dmg".
Proof. repeat split; reflexivity. Qed.

Example fmt_d_examples :
  fmt_d 0 = "0" ∧ fmt_d 7 = "7" ∧ fmt_d 300 = "300"
  ∧ fmt_d 18446744073709551615 = "18446744073709551615".
Proof. repeat split; reflexivity. Qed.

Example errors_Is_examples :
  errors_Is (Some (PathError "stat" "iOS_DDI.dmg" ErrNotExist)) ErrNotExist = true
  ∧ errors_Is (Some (PathError "stat" "iOS_DDI.dmg" EACCES)) ErrNotExist = false
  ∧ errors_Is None ErrNotExist = false.
Proof. repeat split; reflexivity. Qed.

(** A plain run from a manifest file: one read, one signing call, one
    write. *)
Example run_from_manifest :
  RunE (scripted all_fine) from_manifest
  = (None,
     [EvNoColor false;
      EvReadFile "BuildManifest.plist" ([x3c; x3f], None);
      EvPersonalize (personal_config from_manifest (Some [x3c; x3f]))
        ([x01; x02; x03], None);
      EvLog InfoLevel 0 "Writing signature to 100.200.300.personalized.signature";
      EvWriteFile "100.200.300.personalized.signature" [x01; x02; x03]
        perm_0644 None]).
Proof. vm_compute. reflexivity. Qed.

(** Xcode without the disk image: the command stops after the [Stat]. *)
Example run_image_absent :
  RunE (scripted image_absent) from_xcode
  = (Some (fmt_Errorf
             "failed to find iOS_DDI.dmg in '/Applications/Xcode.app' (install NEW XCode.app or Xcode-beta.app)"),
     [EvNoColor false;
      EvStat "/Applications/Xcode.app/Contents/Resources/CoreDeviceDDIs/iOS_DDI.dmg"
        (sc_stat image_absent)]).
Proof. vm_compute. reflexivity. Qed.

(** ** Symbolic execution *)

(** Case analysis on the next value the run branches on: the innermost
    scrutinee that is not itself a case analysis. *)
Ltac next_case :=
  match goal with
  | |- context [match ?x with _ => _ end] =>
      lazymatch x with
      | context [match _ with _ => _ end] => fail
      | decide _ => destruct x
      | _ => destruct x eqn:?
      end
  end.

(** Unfold the monad and follow every branch of the command. *)
Ltac run_cmd :=
  cbn zeta;
  unfold RunE, call, RunE_body, utils_Indent, log_Infof, log_Errorf,
    time_Sleep, bind, perform, emit, ret, return_, defer;
  cbn [events defers app with_Unmount filepath_Join os_Stat utils_MountDMG
       os_ReadFile plist_ParseBuildManifest tss_Personalize os_MkdirAll
       os_WriteFile verbose color sign_xcode sign_manifest sign_board_id
       sign_chip_id sign_ecid sign_nonce sign_output sign_proxy sign_insecure];
  repeat (next_case; simplify_eq;
          cbn [events defers app fst snd run_defers fold_left returned]).

(** ** The release step *)

(** The deferred closure appends one of four sequences to the trace: the
    debug message, then up to three unmount attempts separated by pauses of
    two seconds, and the error message when the third attempt failed too. *)
Lemma release_cases {BM} (w : Sys BM) (dmg mp : string) (t : list (Event BM)) :
  let log := EvLog DebugLevel 2 ("Unmounting " +:+ dmg) in
  let U := EvUnmount mp false in
  let S := EvSleep (2 * Second) in
  closure (unmount_deferred w dmg mp) t = t ++ [log; U None]
  ∨ (∃ e1, closure (unmount_deferred w dmg mp) t
           = t ++ [log; U (Some e1); S; U None])
  ∨ (∃ e1 e2, closure (unmount_deferred w dmg mp) t
           = t ++ [log; U (Some e1); S; U (Some e2); S; U None])
  ∨ (∃ e1 e2 e3, closure (unmount_deferred w dmg mp) t
           = t ++ [log; U (Some e1); S; U (Some e2); S; U (Some e3);
                   EvLog ErrorLevel 0
                     ("failed to unmount " +:+ dmg +:+ " at " +:+ mp +:+ ": "
                      +:+ Error e3)]).
Proof.
  intros log U S. unfold closure, unmount_deferred, utils_Retry, retry_loop, call.
  unfold utils_Indent, log_Infof, log_Errorf,
    time_Sleep, bind, perform, emit, ret, return_, defer;
  cbn [events defers app].
  repeat (next_case; simplify_eq;
          cbn [events defers app fst snd run_defers fold_left returned]).
  all: rewrite <- ?app_assoc; cbn [app]; eauto 10.
Qed.

(** ** Every run follows a path *)

(** Side conditions on the flags: propositional, once it is decided which
    of the strings are empty. *)
Ltac flags :=
  unfold identity_missing;
  cbn [verbose color sign_xcode sign_manifest sign_board_id sign_chip_id
       sign_ecid sign_nonce sign_output sign_proxy sign_insecure];
  first
    [ assumption
    | tauto
    | repeat match goal with
             | H : context [?x = ""] |- _ =>
                 is_var x;
                 lazymatch goal with
                 | _ : x = "" |- _ => fail
                 | _ : x ≠ "" |- _ => fail
                 | _ => destruct (decide (x = ""))
                 end
             end; tauto ].

(** The constructor of [Tail] is read off the last event of the trace. *)
Ltac pick_tail :=
  lazymatch goal with
  | |- Tail ?w ?v ?t0 ?p _ ?t =>
      lazymatch t with
      | context [EvWriteFile _ _ _ ?r] =>
          lazymatch t with
          | context [EvMkdirAll _ _ _] => eapply (tail_write_nested w v t0 p) with (werr := r)
          | _ => eapply (tail_write_plain w v t0 p) with (werr := r)
          end
      | context [EvMkdirAll _ _ (Some _)] => eapply (tail_mkdir w v t0 p)
      | context [EvPersonalize _ (_, Some _)] => eapply (tail_personalize w v t0 p)
      | context [EvReadFile _ (_, Some _)] => eapply (tail_read w v t0 p)
      | _ => eapply (tail_parse w v t0 p)
      end
  end.

(** The constructor of [Runs] is read off the trace and the error. *)
Ltac pick_run :=
  lazymatch goal with
  | |- Runs ?w ?v _ (closure _ _) => eapply (run_acquired w v)
  | |- Runs ?w ?v ?r ?t =>
      lazymatch t with
      | context [EvLog InfoLevel 3 _] => eapply (run_already_mounted w v)
      | context [EvMountDMG _ _] => eapply (run_mount_failed w v)
      | context [EvReadFile _ _] => eapply (run_manifest w v)
      | context [EvStat _ _] => eapply (run_not_found w v)
      | _ =>
          lazymatch r with
          | Some (fmt_Errorf "cannot specify both --xcode and --manifest") =>
              eapply (run_both w v)
          | Some (fmt_Errorf "must specify either --xcode or --manifest") =>
              eapply (run_neither w v)
          | _ => eapply (run_identity w v)
          end
      end
  end.

(** The path relation is complete for the embedding. *)
Lemma RunE_Runs {BM} (w : Sys BM) (v : Viper) :
  Runs w v (fst (RunE w v)) (snd (RunE w v)).
Proof.
  destruct v as [vb co xc mf bid cid ecid nonce out proxy insec].
  run_cmd.
  all: pick_run.
  all: try (first [eassumption | reflexivity]).
  all: try (pick_tail; try (first [eassumption | reflexivity])).
  all: try flags.
Qed.

Lemma RunE_path {BM} (w : Sys BM) (v : Viper) res tr :
  RunE w v = (res, tr) → Runs w v res tr.
Proof. intros H. pose proof (RunE_Runs w v) as P. by rewrite H in P. Qed.

(** ** Reasoning on a path *)

(** Substitute the equations that inversion leaves, except those that name
    the answer of an oracle: the answer stays a variable. *)
Ltac subst_indices :=
  repeat match goal with
         | H : ?x = ?t |- _ =>
             is_var x;
             lazymatch t with
             | os_Stat _ _ _ => fail
             | os_WriteFile _ _ _ _ _ => fail
             | _ => subst x
             end
         | H : ?t = ?x |- _ =>
             is_var x;
             lazymatch t with
             | os_Stat _ _ _ => fail
             | os_WriteFile _ _ _ _ _ => fail
             | _ => subst x
             end
         end.

(** Case analysis on the path of a run, with the preamble made explicit. *)
Ltac on_paths H :=
  apply RunE_path in H;
  inversion H; subst_indices; clear H;
  try match goal with
      | HT : Tail _ _ _ _ _ _ |- _ => inversion HT; subst_indices; clear HT
      end;
  repeat match goal with x := _ |- _ => subst x end;
  cbn zeta in *; unfold preamble in *;
  try match goal with
      | |- context [verbose ?v] => destruct (verbose v)
      | _ : context [verbose ?v] |- _ => destruct (verbose v)
      end;
  cbn [app] in *.

(** Case analysis on what the release step appended. *)
Ltac release :=
  match goal with
  | |- context [closure (unmount_deferred ?w ?d ?m) ?t] =>
      let H := fresh "Hrel" in
      destruct (release_cases w d m t)
        as [H | [(? & H) | [(? & ? & H) | (? & ? & ? & H)]]];
      cbn zeta in H; rewrite H in *; clear H
  | _ : context [closure (unmount_deferred ?w ?d ?m) ?t] |- _ =>
      let H := fresh "Hrel" in
      destruct (release_cases w d m t)
        as [H | [(? & H) | [(? & ? & H) | (? & ? & ? & H)]]];
      cbn zeta in H; rewrite H in *; clear H
  end.

(** Which event of an explicit trace a hypothesis [In e t] speaks of. *)
Ltac split_In :=
  repeat match goal with
         | H : In _ (_ ++ _) |- _ => apply in_app_or in H; destruct H as [H | H]
         | H : In _ (_ :: _) |- _ =>
             destruct H as [H | H];
             [ first [discriminate H | injection H as ?; simplify_eq] |]
         | H : In _ [] |- _ => destruct H
         end.

Ltac find_In := rewrite ?in_app_iff; cbn [In]; auto 20.

(** ** The mount is released on every exit *)

(** C1.  When this invocation mounted the image itself ([alreadyMounted]
    false) and a later stage fails, the trace is what the body did, ending
    with the call of the stage that failed (for a manifest that does not
    parse, the read of that manifest), followed by the release step and
    nothing else: the deferred closure runs once, after the failure and
    before the error reaches the caller, and calls unmount on the mount
    point. *)
Theorem release_runs_once_on_failure {BM} (w : Sys BM) (v : Viper)
    (err : errval) (tr : list (Event BM)) (dmg mp : string) :
  RunE w v = (Some err, tr) →
  In (EvMountDMG dmg (mp, false, None)) tr →
  ∃ body r rel,
    tr = body ++ EvLog DebugLevel 2 ("Unmounting " +:+ dmg)
                 :: EvUnmount mp false r :: rel
    ∧ In (EvMountDMG dmg (mp, false, None)) body
    ∧ release_steps body = 0 ∧ unmount_calls body = 0
    ∧ release_steps tr = 1
    ∧ forallb is_release_call rel = true
    ∧ ∃ ev n cause ctx,
        last body = Some ev
        ∧ stage ev = Some n ∧ (3 ≤ n)%nat
        ∧ (failure_of ev = Some cause
           ∨ ∃ p data bm,
               ev = EvReadFile p (data, None)
               ∧ plist_ParseBuildManifest w data = (bm, Some cause))
        ∧ err = wrapError (ctx +:+ Error cause) cause.
Proof.
  intros Hrun Hin.
  remember (Some err) as res eqn:Hres in Hrun.
  on_paths Hrun.
  all: try match goal with
           | H : _ <$> ?werr = Some _ |- _ =>
               destruct werr; [injection H as <- | discriminate H]
           | H : Some _ = Some _ |- _ => injection H as <-
           end.
  all: try release.
  all: split_In.
  all: eexists _, _, _; (split; [reflexivity |]).
  all: do 5 (split; [cbn; auto 10; fail |]).
  all: eexists _, _, _, _; (split; [reflexivity |]).
  all: split; [reflexivity |]; split; [cbn; lia |].
  all: split; [first [left; reflexivity | right; eauto] | reflexivity].
Qed.

(** C2.  When the mounter reports that the image was already mounted, the
    invocation makes no unmount call and never enters the release step. *)
Theorem already_mounted_never_unmounted {BM} (w : Sys BM) (v : Viper)
    (res : error) (tr : list (Event BM)) (dmg mp : string) (e : error) :
  RunE w v = (res, tr) →
  In (EvMountDMG dmg (mp, true, e)) tr →
  unmount_calls tr = 0 ∧ release_steps tr = 0.
Proof.
  intros Hrun Hin. on_paths Hrun.
  all: try release.
  all: split_In.
  all: split; reflexivity.
Qed.

(** ** The unmount is retried, and its failure is only logged *)

(** The body never looks at what unmount answers: it has returned before
    the deferred closure runs. *)
Lemma result_independent_of_unmount {BM} (w : Sys BM) (v : Viper) u :
  fst (RunE (with_Unmount u w) v) = fst (RunE w v).
Proof. run_cmd; reflexivity. Qed.

(** C3.  Unmount is attempted at most three times, with a pause of two
    seconds between two attempts and nowhere else; when the three attempts
    fail the failure is logged as the last thing the command does; and the
    error returned to the caller does not depend on what unmount answers. *)
Theorem unmount_retry_bounded_and_silent {BM} (w : Sys BM) (v : Viper) :
  let tr := snd (RunE w v) in
  let pause := Wait (2 * Second) in
  (unmount_calls tr ≤ 3)%nat
  ∧ In (retry_view tr)
       [ [];
         [Try true];
         [Try false; pause; Try true];
         [Try false; pause; Try false; pause; Try true];
         [Try false; pause; Try false; pause; Try false] ]
  ∧ (retry_view tr = [Try false; pause; Try false; pause; Try false] →
     ∃ dmg mp e,
       last tr = Some (EvLog ErrorLevel 0
                   ("failed to unmount " +:+ dmg +:+ " at " +:+ mp +:+ ": "
                    +:+ Error e)))
  ∧ (∀ u, fst (RunE (with_Unmount u w) v) = fst (RunE w v)).
Proof.
  intros tr pause.
  assert (Hshape :
    (unmount_calls tr ≤ 3)%nat
    ∧ In (retry_view tr)
         [ [];
           [Try true];
           [Try false; pause; Try true];
           [Try false; pause; Try false; pause; Try true];
           [Try false; pause; Try false; pause; Try false] ]
    ∧ (retry_view tr = [Try false; pause; Try false; pause; Try false] →
       ∃ dmg mp e,
         last tr = Some (EvLog ErrorLevel 0
                     ("failed to unmount " +:+ dmg +:+ " at " +:+ mp +:+ ": "
                      +:+ Error e)))).
  { subst tr pause. destruct (RunE w v) as [res tr] eqn:Hrun. cbn [snd].
    on_paths Hrun.
    all: try release.
    all: cbn; (split; [lia |]); (split; [auto 10 |]).
    all: intros; simplify_eq; eauto. }
  destruct Hshape as (? & ? & ?).
  repeat split; auto using result_independent_of_unmount.
Qed.

(** ** Validation of the flags *)

Ltac absurd_flags :=
  exfalso;
  unfold identity_missing in *;
  repeat match goal with
         | H : _ ∧ _ |- _ => destruct H
         | H : _ ∨ _ |- _ => destruct H
         | H : _ ↔ _ |- _ => destruct H
         end;
  solve [ congruence | tauto | intuition congruence ].

(** C4.  When both sources of the manifest are given, or none, the command
    returns a configuration error having done nothing but set up its logger:
    no call reached the file system, the mounter or the network. *)
Theorem source_conflict_rejected_first {BM} (w : Sys BM) (v : Viper) :
  (sign_xcode v ≠ "" ∧ sign_manifest v ≠ "")
  ∨ (sign_xcode v = "" ∧ sign_manifest v = "") →
  ∃ e,
    RunE w v = (Some e, preamble v)
    ∧ e = (if decide (sign_xcode v = "") then err_neither else err_both)
    ∧ ConfigurationError e
    ∧ forallb (fun ev => negb (touches_outside ev)) (snd (RunE w v)) = true.
Proof.
  intros Hsrc. destruct (RunE w v) as [res tr] eqn:Hrun. cbn [snd].
  on_paths Hrun; try absurd_flags.
  all: eexists; (split; [reflexivity |]).
  all: case_decide; try absurd_flags.
  all: unfold ConfigurationError; auto.
Qed.

(** C5, as the code has it.  A missing identity field always yields a
    configuration error before anything is touched; the error is the one
    that names the four identity flags whenever exactly one source of the
    manifest is given (the check of the sources comes first). *)
Theorem identity_missing_rejected_first {BM} (w : Sys BM) (v : Viper) :
  identity_missing v →
  ∃ e,
    RunE w v = (Some e, preamble v)
    ∧ ConfigurationError e
    ∧ forallb (fun ev => negb (touches_outside ev)) (snd (RunE w v)) = true
    ∧ ((sign_xcode v = "" ↔ sign_manifest v ≠ "") →
       e = err_identity ∧ names_required_flags e = true).
Proof.
  intros Hid. destruct (RunE w v) as [res tr] eqn:Hrun. cbn [snd].
  on_paths Hrun; try absurd_flags.
  all: eexists; (split; [reflexivity |]).
  all: unfold ConfigurationError; (split; [auto |]); (split; [reflexivity |]).
  all: intros Hone; try absurd_flags; split; reflexivity.
Qed.

(** ** The signature file *)

(** [fmt_d n] reads back as [n] in base ten. *)
Lemma fmt_d_decimal (n : N) :
  option_map N.of_uint (NilEmpty.uint_of_string (fmt_d n)) = Some n.
Proof.
  unfold fmt_d. rewrite NilEmpty.usu. cbn. f_equal. apply DecimalN.Unsigned.of_to.
Qed.

(** C6.  The signature is written to the file named by the decimal
    renderings of the board id, the chip id and the ECID, joined by dots and
    followed by [.personalized.signature]; when an output directory is given
    it is created with [MkdirAll] first and the name is joined under it. *)
Theorem signature_file_name {BM} (w : Sys BM) (v : Viper) :
  let tr := snd (RunE w v) in
  let fname :=
    fmt_d (sign_board_id v) +:+ "." +:+ fmt_d (sign_chip_id v) +:+ "."
    +:+ fmt_d (sign_ecid v) +:+ ".personalized.signature" in
  let path :=
    if decide (sign_output v = "") then fname
    else filepath_Join w [sign_output v; fname] in
  (∀ name data perm r,
     In (EvWriteFile name data perm r) tr →
     name = path ∧ perm = perm_0644
     ∧ (sign_output v ≠ "" → In (EvMkdirAll (sign_output v) perm_0750 None) tr))
  ∧ (∀ dir perm r,
       In (EvMkdirAll dir perm r) tr →
       dir = sign_output v ∧ perm = perm_0750 ∧ sign_output v ≠ "")
  ∧ (fst (RunE w v) = None → ∃ data, In (EvWriteFile path data perm_0644 None) tr)
  ∧ (sign_board_id v = 100%N → sign_chip_id v = 200%N → sign_ecid v = 300%N →
     fname = "100.200.300.personalized.signature")
  ∧ (∀ n, option_map N.of_uint (NilEmpty.uint_of_string (fmt_d n)) = Some n).
Proof.
  intros tr fname path.
  split; [| split; [| split; [| split]]].
  - subst tr fname path. intros name data perm r.
    destruct (RunE w v) as [res tr] eqn:Hrun. cbn [snd]. intros Hin.
    on_paths Hrun; try release; split_In.
    all: case_decide; try contradiction.
    all: repeat split; try reflexivity; intros; try contradiction; find_In.
  - subst tr. intros dir perm r.
    destruct (RunE w v) as [res tr] eqn:Hrun. cbn [snd]. intros Hin.
    on_paths Hrun; try release; split_In.
    all: repeat split; try reflexivity; assumption.
  - subst tr fname path.
    destruct (RunE w v) as [res tr] eqn:Hrun. cbn [fst snd]. intros ->.
    on_paths Hrun; try release.
    all: try match goal with
             | H : _ <$> ?werr = None |- _ => destruct werr; [discriminate H |]
             end.
    all: case_decide; try contradiction.
    all: eexists; find_In.
  - intros H1 H2 H3. subst fname. rewrite H1, H2, H3. reflexivity.
  - apply fmt_d_decimal.
Qed.

(** ** The personalization request *)

(** The identity map of a request, as a finite map. *)
Lemma personal_config_identity {BM} (v : Viper) (bm : option BM) :
  let ids := PersonlID (personal_config v bm) in
  dom ids = ({[ "BoardId"; "ChipID"; "UniqueChipID" ]} : gset string)
  ∧ size ids = 3
  ∧ ids !! "BoardId" = Some (any_uint64 (sign_board_id v))
  ∧ ids !! "ChipID" = Some (any_uint64 (sign_chip_id v))
  ∧ ids !! "UniqueChipID" = Some (any_uint64 (sign_ecid v))
  ∧ (∀ k x, ids !! k = Some x → ∃ n, x = any_uint64 n).
Proof.
  unfold personal_config; cbn [PersonlID].
  split; [| split; [| split; [| split; [| split]]]]; try reflexivity.
  intros k x. rewrite !lookup_insert, lookup_singleton.
  repeat case_decide; intros; simplify_eq; eauto.
Qed.

(** C7.  Every request handed to the signing service carries an identity
    map with exactly the keys [BoardId], [ChipID] and [UniqueChipID], bound to
    the three identifiers as unsigned integers; and nothing can fail between
    a successful parse of the manifest and the call of the signing service
    with that request. *)
Theorem request_identity_map {BM} (w : Sys BM) (v : Viper) :
  let tr := snd (RunE w v) in
  (∀ cfg r,
     In (EvPersonalize cfg r) tr →
     let ids := PersonlID cfg in
     dom ids = ({[ "BoardId"; "ChipID"; "UniqueChipID" ]} : gset string)
     ∧ size ids = 3
     ∧ ids !! "BoardId" = Some (any_uint64 (sign_board_id v))
     ∧ ids !! "ChipID" = Some (any_uint64 (sign_chip_id v))
     ∧ ids !! "UniqueChipID" = Some (any_uint64 (sign_ecid v))
     ∧ (∀ k x, ids !! k = Some x → ∃ n, x = any_uint64 n))
  ∧ (∀ p data bm,
       In (EvReadFile p (data, None)) tr →
       plist_ParseBuildManifest w data = (bm, None) →
       ∃ r, In (EvPersonalize (personal_config v bm) r) tr).
Proof.
  intros tr. subst tr. split.
  - intros cfg r. destruct (RunE w v) as [res tr] eqn:Hrun. cbn [snd]. intros Hin.
    on_paths Hrun; try release; split_In.
    all: apply personal_config_identity.
  - intros p data bm. destruct (RunE w v) as [res tr] eqn:Hrun. cbn [snd].
    intros Hin Hparse.
    on_paths Hrun; try release; split_In.
    all: try congruence.
    all: match goal with
         | H1 : plist_ParseBuildManifest _ _ = _,
           H2 : plist_ParseBuildManifest _ _ = _ |- _ =>
             rewrite H1 in H2; injection H2 as ->
         end.
    all: eexists; find_In.
Qed.

(** ** The manifest inside Xcode *)

Lemma mentions_app_r (needle a b : string) :
  mentions needle b = true → mentions needle (a +:+ b) = true.
Proof.
  intros Hb. induction a as [| c a IH]; [exact Hb |].
  change (mentions needle (String c a +:+ b))
    with (String.prefix needle (String c (a +:+ b)) || mentions needle (a +:+ b)).
  rewrite IH. apply orb_true_r.
Qed.


(** C8, as the code has it.  On the Xcode branch the first thing looked at
    is the disk image at its fixed place under the Xcode root.  When [Stat]
    answers with an error that is [os.ErrNotExist] the command
    returns the error that tells to install a newer Xcode, and the mounter is
    never called; otherwise the image is mounted, and once mounted the
    manifest is read at [Restore/BuildManifest.plist] under the mount
    point. *)
Theorem xcode_branch_manifest_location {BM} (w : Sys BM) (v : Viper)
    (res : error) (tr : list (Event BM)) :
  sign_xcode v ≠ "" → sign_manifest v = "" → ¬ identity_missing v →
  RunE w v = (res, tr) →
  let dmg :=
    filepath_Join w
      [sign_xcode v; "/Contents/Resources/CoreDeviceDDIs/iOS_DDI.dmg"] in
  ∃ st rest,
    tr = preamble v ++ EvStat dmg st :: rest
    ∧ (errors_Is st ErrNotExist = true →
       res = Some (fmt_Errorf
                     ("failed to find iOS_DDI.dmg in '" +:+ sign_xcode v
                      +:+ "' (install NEW XCode.app or Xcode-beta.app)"))
       ∧ (∀ e, res = Some e →
               mentions "install NEW XCode.app or Xcode-beta.app" (Error e) = true)
       ∧ rest = [] ∧ mount_attempts tr = 0)
    ∧ (errors_Is st ErrNotExist = false →
       ∃ r rest',
         rest = EvLog InfoLevel 2 ("Mounting " +:+ dmg)
                :: EvMountDMG dmg r :: rest'
         ∧ ∀ mp am,
             r = (mp, am, None) →
             ∃ rd rest'',
               rest' =
                 (if am then [EvLog InfoLevel 3 (dmg +:+ " already mounted")]
                  else [])
                 ++ EvReadFile
                      (filepath_Join w [mp; "Restore/BuildManifest.plist"]) rd
                    :: rest'').
Proof.
  intros Hx Hm Hid Hrun dmg. subst dmg.
  on_paths Hrun; try absurd_flags; try release.
  all: unfold iOS_DDI in *; cbn [app].
  all: eexists _, _; (split; [reflexivity |]).
  all: split; [intros Hst; try congruence | intros Hst; try congruence].
  all: try (split; [reflexivity |]; split; [| split; reflexivity];
            intros ? [= <-]; cbn [Error fmt_Errorf];
            do 2 apply mentions_app_r; reflexivity).
  all: eexists _, _; (split; [reflexivity |]).
  all: intros mp' am' [= <- <-] || intros mp' am' [=].
  all: eexists _, _; reflexivity.
Qed.

(** ** Which error for which flags *)



(** ** Strings *)

Lemma append_assoc (a b c : string) : (a +:+ b) +:+ c = a +:+ (b +:+ c).
Proof.
  induction a as [| x a IH]; [reflexivity |].
  change (String x ((a +:+ b) +:+ c) = String x (a +:+ (b +:+ c))).
  by rewrite IH.
Qed.

Lemma prefix_app (a b : string) : String.prefix a (a +:+ b) = true.
Proof.
  induction a as [| c a IH]; [destruct b; reflexivity |].
  simpl. destruct (ascii_dec c c); [exact IH | contradiction].
Qed.

Lemma mentions_here (needle b : string) : mentions needle (needle +:+ b) = true.
Proof.
  destruct (needle +:+ b) eqn:E; cbn [mentions]; rewrite <- E, prefix_app;
    reflexivity.
Qed.

(** ** The error of a failed write *)

(** Whatever file was being written, the context of the error is built
    from [--output]. *)
Lemma write_error_context {BM} (w : Sys BM) (v : Viper) res tr name data perm e :
  RunE w v = (res, tr) →
  In (EvWriteFile name data perm (Some e)) tr →
  res = Some (fmt_Errorf_w
                ("failed to write signature to " +:+ sign_output v +:+ ": ") e).
Proof.
  intros Hrun Hin. on_paths Hrun; try release; split_In.
  all: reflexivity.
Qed.

(** C9.  A failed [MkdirAll] is reported with the output directory.  A
    failed [WriteFile] is reported with the path of the file being written:
    the context the command adds holds [--output] only, but the error of
    package [os] it wraps is a [*PathError] that carries the path given to
    [WriteFile], and that path is the signature file under the output
    directory. *)
Theorem write_failure_reports_the_path {BM} (w : Sys BM) (v : Viper)
    (res : error) (tr : list (Event BM)) :
  RunE w v = (res, tr) →
  (∀ dir perm e,
     In (EvMkdirAll dir perm (Some e)) tr →
     dir = sign_output v
     ∧ ∃ err, res = Some err ∧ mentions dir (Error err) = true)
  ∧ (∀ name data perm op cause,
       In (EvWriteFile name data perm (Some (PathError op name cause))) tr →
       name = (if decide (sign_output v = "") then signature_name v
               else filepath_Join w [sign_output v; signature_name v])
       ∧ ∃ err,
           res = Some err
           ∧ err = fmt_Errorf_w
                     ("failed to write signature to " +:+ sign_output v +:+ ": ")
                     (PathError op name cause)
           ∧ mentions name (Error err) = true).
Proof.
  intros Hrun. split.
  - intros dir perm e Hin. on_paths Hrun; try release; split_In.
    all: (split; [reflexivity |]); eexists; (split; [reflexivity |]).
    all: unfold mkdir_failed; cbn [Error fmt_Errorf_w].
    all: rewrite !append_assoc; apply mentions_app_r, mentions_here.
  - intros name data perm op cause Hin. on_paths Hrun; try release; split_In.
    all: case_decide; try contradiction.
    all: (split; [reflexivity |]); eexists; (split; [reflexivity |]).
    all: (split; [reflexivity |]).
    all: unfold write_failed; cbn [Error fmt_Errorf_w].
    all: rewrite !append_assoc; do 5 apply mentions_app_r; apply mentions_here.
Qed.

(** ** Concrete runs *)

Ltac pick_In := vm_compute; repeat (first [left; reflexivity | right]).

Lemma release_runs_once_on_failure_witness :
  let w := scripted read_fails in
  let run := RunE w from_xcode in
  let dmg := "/Applications/Xcode.app/Contents/Resources/CoreDeviceDDIs/iOS_DDI.dmg" in
  let mp := "/private/tmp/ddi" in
  let err := fmt_Errorf_w "failed to read BuildManifest.plist: " EACCES in
  run = (Some err, snd run)
  ∧ In (EvMountDMG dmg (mp, false, None)) (snd run)
  ∧ ∃ body r rel,
      snd run = body ++ EvLog DebugLevel 2 ("Unmounting " +:+ dmg)
                        :: EvUnmount mp false r :: rel
      ∧ In (EvMountDMG dmg (mp, false, None)) body
      ∧ release_steps body = 0 ∧ unmount_calls body = 0
      ∧ release_steps (snd run) = 1
      ∧ forallb is_release_call rel = true
      ∧ ∃ ev n cause ctx,
          last body = Some ev
          ∧ stage ev = Some n ∧ (3 ≤ n)%nat
          ∧ (failure_of ev = Some cause
             ∨ ∃ p data bm,
                 ev = EvReadFile p (data, None)
                 ∧ plist_ParseBuildManifest w data = (bm, Some cause))
          ∧ err = wrapError (ctx +:+ Error cause) cause.
Proof.
  cbn zeta.
  split; [vm_compute; reflexivity |].
  split; [pick_In |].
  apply (release_runs_once_on_failure (scripted read_fails) from_xcode
           (fmt_Errorf_w "failed to read BuildManifest.plist: " EACCES)).
  - vm_compute; reflexivity.
  - pick_In.
Defined.

Lemma already_mounted_never_unmounted_witness :
  let run := RunE (scripted already_mounted) from_xcode in
  let dmg := "/Applications/Xcode.app/Contents/Resources/CoreDeviceDDIs/iOS_DDI.dmg" in
  run = (None, snd run)
  ∧ In (EvMountDMG dmg ("/Volumes/iOS_DDI", true, None)) (snd run)
  ∧ unmount_calls (snd run) = 0 ∧ release_steps (snd run) = 0.
Proof.
  cbn zeta.
  split; [vm_compute; reflexivity |].
  split; [pick_In |].
  apply (already_mounted_never_unmounted (scripted already_mounted) from_xcode
           None _ "/Applications/Xcode.app/Contents/Resources/CoreDeviceDDIs/iOS_DDI.dmg"
           "/Volumes/iOS_DDI" None).
  - vm_compute; reflexivity.
  - pick_In.
Defined.

Lemma unmount_retry_bounded_and_silent_witness :
  let run := RunE (scripted unmount_busy) from_xcode in
  let pause := Wait (2 * Second) in
  retry_view (snd run) = [Try false; pause; Try false; pause; Try false]
  ∧ fst run = None
  ∧ fst (RunE (with_Unmount (fun _ _ _ => None) (scripted unmount_busy)) from_xcode)
    = None
  ∧ ∃ dmg mp e,
      last (snd run)
      = Some (EvLog ErrorLevel 0
                ("failed to unmount " +:+ dmg +:+ " at " +:+ mp +:+ ": "
                 +:+ Error e)).
Proof.
  cbn zeta.
  destruct (unmount_retry_bounded_and_silent (scripted unmount_busy) from_xcode)
    as (_ & _ & Hlog & Hsame).
  split; [vm_compute; reflexivity |].
  split; [vm_compute; reflexivity |].
  split; [rewrite Hsame; vm_compute; reflexivity |].
  apply Hlog. vm_compute; reflexivity.
Defined.

Lemma source_conflict_rejected_first_witness :
  (sign_xcode both_sources ≠ "" ∧ sign_manifest both_sources ≠ "")
  ∧ ∃ e,
      RunE (scripted all_fine) both_sources = (Some e, preamble both_sources)
      ∧ e = (if decide (sign_xcode both_sources = "") then err_neither else err_both)
      ∧ ConfigurationError e
      ∧ forallb (fun ev => negb (touches_outside ev))
          (snd (RunE (scripted all_fine) both_sources)) = true.
Proof.
  assert (H : sign_xcode both_sources ≠ "" ∧ sign_manifest both_sources ≠ "")
    by (split; discriminate).
  split; [exact H |].
  apply (source_conflict_rejected_first (scripted all_fine) both_sources).
  left; exact H.
Defined.

Lemma identity_missing_rejected_first_witness :
  identity_missing no_board_id
  ∧ ∃ e,
      RunE (scripted all_fine) no_board_id = (Some e, preamble no_board_id)
      ∧ ConfigurationError e
      ∧ forallb (fun ev => negb (touches_outside ev))
          (snd (RunE (scripted all_fine) no_board_id)) = true
      ∧ ((sign_xcode no_board_id = "" ↔ sign_manifest no_board_id ≠ "") →
         e = err_identity ∧ names_required_flags e = true).
Proof.
  assert (H : identity_missing no_board_id) by (left; reflexivity).
  split; [exact H |].
  apply (identity_missing_rejected_first (scripted all_fine) no_board_id H).
Defined.

(** C5 as the claim states it fails on a run that has both sources set: the
    error names [--xcode] and [--manifest], not the identity flags. *)
Lemma identity_error_masked_by_source_error :
  ¬ (identity_missing no_board_id_both_sources →
     ∃ e tr,
       RunE (scripted all_fine) no_board_id_both_sources = (Some e, tr)
       ∧ ConfigurationError e
       ∧ names_required_flags e = true).
Proof.
  intros H. destruct H as (e & tr & Hrun & _ & Hnames).
  - left; reflexivity.
  - vm_compute in Hrun. injection Hrun as <- _. vm_compute in Hnames.
    discriminate Hnames.
Qed.

Lemma signature_file_name_witness :
  let run := RunE (scripted all_fine) into_out in
  fst run = None
  ∧ In (EvMkdirAll "out" perm_0750 None) (snd run)
  ∧ In (EvWriteFile "out/100.200.300.personalized.signature" [x01; x02; x03]
          perm_0644 None) (snd run).
Proof.
  cbn zeta.
  destruct (signature_file_name (scripted all_fine) into_out)
    as (Hname & _ & Hwritten & _ & _).
  assert (Hok : fst (RunE (scripted all_fine) into_out) = None)
    by (vm_compute; reflexivity).
  split; [exact Hok |].
  destruct (Hwritten Hok) as (data & Hin).
  destruct (Hname _ _ _ _ Hin) as (_ & _ & Hdir).
  split; [apply Hdir; discriminate |].
  pick_In.
Defined.

Lemma request_identity_map_witness :
  let run := RunE (scripted all_fine) from_manifest in
  In (EvReadFile "BuildManifest.plist" ([x3c; x3f], None)) (snd run)
  ∧ ∃ r, In (EvPersonalize (personal_config from_manifest (Some [x3c; x3f])) r)
           (snd run).
Proof.
  cbn zeta.
  destruct (request_identity_map (scripted all_fine) from_manifest) as (_ & Hcall).
  assert (Hin : In (EvReadFile "BuildManifest.plist" ([x3c; x3f], None))
                  (snd (RunE (scripted all_fine) from_manifest))) by pick_In.
  split; [exact Hin |].
  apply (Hcall _ _ _ Hin). reflexivity.
Defined.

Lemma xcode_branch_manifest_location_witness :
  let run := RunE (scripted image_absent) from_xcode in
  let dmg := "/Applications/Xcode.app/Contents/Resources/CoreDeviceDDIs/iOS_DDI.dmg" in
  (sign_xcode from_xcode ≠ "" ∧ sign_manifest from_xcode = ""
   ∧ ¬ identity_missing from_xcode)
  ∧ errors_Is (sc_stat image_absent) ErrNotExist = true
  ∧ snd run = preamble from_xcode ++ [EvStat dmg (sc_stat image_absent)]
  ∧ fst run = Some (fmt_Errorf
                "failed to find iOS_DDI.dmg in '/Applications/Xcode.app' (install NEW XCode.app or Xcode-beta.app)")
  ∧ (∀ e, fst run = Some e →
          mentions "install NEW XCode.app or Xcode-beta.app" (Error e) = true)
  ∧ mount_attempts (snd run) = 0.
Proof.
  cbn zeta.
  assert (Hx : sign_xcode from_xcode ≠ "") by discriminate.
  assert (Hm : sign_manifest from_xcode = "") by reflexivity.
  assert (Hid : ¬ identity_missing from_xcode)
    by (intros [H | [H | [H | H]]]; discriminate H).
  assert (Habsent : errors_Is (sc_stat image_absent) ErrNotExist = true)
    by reflexivity.
  split; [auto |]. split; [exact Habsent |].
  destruct (xcode_branch_manifest_location (scripted image_absent) from_xcode
              (fst (RunE (scripted image_absent) from_xcode))
              (snd (RunE (scripted image_absent) from_xcode)) Hx Hm Hid)
    as (st & rest & Htr & Hnot_found & _).
  - vm_compute; reflexivity.
  - assert (Hst : st = sc_stat image_absent).
    { vm_compute in Htr. injection Htr as Hst _. symmetry. exact Hst. }
    rewrite Hst in Hnot_found, Htr.
    destruct (Hnot_found Habsent) as (Hres & Hguide & Hrest & Hmounts).
    rewrite Hrest in Htr.
    split; [exact Htr |]. split; [exact Hres |]. split; [exact Hguide |].
    exact Hmounts.
Defined.

(** C8 as the claim states it fails when the image is absent because
    [Xcode.app] is not a directory: [Stat] answers [ENOTDIR], which is not
    [os.ErrNotExist], and the command goes on to mount. *)
Lemma absent_image_not_reported_as_such :
  let run := RunE (scripted xcode_is_a_file) from_xcode in
  ¬ (answers_absent (sc_stat xcode_is_a_file) →
     (∃ e, fst run = Some e
           ∧ mentions "install NEW XCode.app or Xcode-beta.app" (Error e) = true)
     ∧ mount_attempts (snd run) = 0).
Proof.
  cbn zeta. intros H. destruct H as [_ Hmount].
  - right. reflexivity.
  - vm_compute in Hmount. discriminate Hmount.
Qed.

Lemma write_failure_reports_the_path_witness :
  let run := RunE (scripted write_denied) from_manifest in
  let name := "100.200.300.personalized.signature" in
  In (EvWriteFile name [x01; x02; x03] perm_0644
        (Some (PathError "open" name EACCES))) (snd run)
  ∧ ∃ err,
      fst run = Some err
      ∧ Error err
        = "failed to write signature to : open 100.200.300.personalized.signature: permission denied"
      ∧ mentions name (Error err) = true.
Proof.
  cbn zeta.
  assert (Hin : In (EvWriteFile "100.200.300.personalized.signature"
                      [x01; x02; x03] perm_0644
                      (Some (PathError "open"
                               "100.200.300.personalized.signature" EACCES)))
                  (snd (RunE (scripted write_denied) from_manifest)))
    by pick_In.
  split; [exact Hin |].
  destruct (write_failure_reports_the_path (scripted write_denied) from_manifest
              (fst (RunE (scripted write_denied) from_manifest))
              (snd (RunE (scripted write_denied) from_manifest)))
    as (_ & Hwrite).
  - vm_compute; reflexivity.
  - destruct (Hwrite _ _ _ _ _ Hin) as (_ & err & Hres & Herr & Hnames).
    exists err. split; [exact Hres |]. split; [| exact Hnames].
    rewrite Herr. reflexivity.
Defined.


(** * More of the command *)

(** ** The manifest given as a file *)

(** X1.  With a manifest file and no Xcode path the command goes straight
    to reading that file: the disk image is never examined, mounted or
    unmounted. *)
Theorem manifest_branch_reads_given_path {BM} (w : Sys BM) (v : Viper)
    (res : error) (tr : list (Event BM)) :
  sign_xcode v = "" → sign_manifest v ≠ "" → ¬ identity_missing v →
  RunE w v = (res, tr) →
  (∃ r rest, tr = preamble v ++ EvReadFile (sign_manifest v) r :: rest)
  ∧ forallb (fun e => negb (about_image e)) tr = true
  ∧ release_steps tr = 0.
Proof.
  intros Hx Hm Hid Hrun.
  on_paths Hrun; try absurd_flags.
  all: (split; [eexists _, _; reflexivity |]); split; reflexivity.
Qed.

(** ** The mount *)

(** X2.  A mount that fails ends the run: the error returned wraps the one
    of the mounter, the mount is the last thing done, and neither the
    manifest is read nor anything unmounted. *)
Theorem mount_failure_is_terminal {BM} (w : Sys BM) (v : Viper)
    (res : error) (tr : list (Event BM)) (dmg mp : string) (am : bool)
    (e : errval) :
  RunE w v = (res, tr) →
  In (EvMountDMG dmg (mp, am, Some e)) tr →
  res = Some (fmt_Errorf_w "failed to mount iOS_DDI.dmg: " e)
  ∧ last tr = Some (EvMountDMG dmg (mp, am, Some e))
  ∧ unmount_calls tr = 0 ∧ release_steps tr = 0.
Proof.
  intros Hrun Hin. on_paths Hrun; try release; split_In.
  all: repeat split; reflexivity.
Qed.

(** X3.  When the run succeeds and this invocation mounted the image, the
    release step runs once, after the signature has been written. *)
Theorem release_runs_once_on_success {BM} (w : Sys BM) (v : Viper)
    (tr : list (Event BM)) (dmg mp : string) :
  RunE w v = (None, tr) →
  In (EvMountDMG dmg (mp, false, None)) tr →
  ∃ body name sig r rel,
    tr = body ++ EvLog DebugLevel 2 ("Unmounting " +:+ dmg)
                 :: EvUnmount mp false r :: rel
    ∧ last body = Some (EvWriteFile name sig perm_0644 None)
    ∧ release_steps body = 0 ∧ unmount_calls body = 0
    ∧ release_steps tr = 1.
Proof.
  intros Hrun Hin.
  remember (@None errval) as res eqn:Hres in Hrun.
  on_paths Hrun.
  all: try match goal with H : Some _ = None |- _ => discriminate H end.
  all: match goal with
       | H : _ <$> ?werr = None |- _ => destruct werr; [discriminate H |]
       end.
  all: try release; split_In.
  all: eexists _, _, _, _, _; (split; [reflexivity |]); cbn; auto 10.
Qed.

(** X12.  Unmount is only called without force and on the mount point the
    mounter returned to this invocation for an image it mounted itself. *)
Theorem unmount_only_what_was_mounted {BM} (w : Sys BM) (v : Viper)
    (res : error) (tr : list (Event BM)) (mp : string) (force : bool)
    (r : error) :
  RunE w v = (res, tr) →
  In (EvUnmount mp force r) tr →
  force = false
  ∧ In (EvMountDMG
          (filepath_Join w
             [sign_xcode v; "/Contents/Resources/CoreDeviceDDIs/iOS_DDI.dmg"])
          (mp, false, None)) tr.
Proof.
  intros Hrun Hin. on_paths Hrun; try release; split_In.
  all: unfold iOS_DDI; split; [reflexivity | find_In].
Qed.

(** X14.  Only a disk image that does not exist stops the command at the
    [Stat]: with any other error of [Stat] the mount is attempted all the
    same. *)
Theorem stat_error_other_than_absent_is_ignored {BM} (w : Sys BM) (v : Viper)
    (res : error) (tr : list (Event BM)) (dmg : string) (e : error) :
  RunE w v = (res, tr) →
  In (EvStat dmg e) tr →
  errors_Is e ErrNotExist = false →
  mount_attempts tr = 1.
Proof.
  intros Hrun Hin Hst. on_paths Hrun; try release; split_In.
  all: try congruence.
  all: reflexivity.
Qed.

(** ** From the manifest to the signature file *)

(** Which event of an explicit trace an unknown event is. *)
Ltac which_event H :=
  repeat match type of H with
         | In _ (_ ++ _) => apply in_app_or in H; destruct H as [H | H]
         | In _ (_ :: _) => destruct H as [<- | H]
         | In _ [] => destruct H
         end.

Ltac case_write_result :=
  repeat match goal with
         | H : context [_ <$> ?werr] |- _ => is_var werr; destruct werr
         | |- context [_ <$> ?werr] => is_var werr; destruct werr
         end.

(** X4.  The command returns [nil] exactly when the write of the signature
    file succeeded. *)
Theorem success_iff_signature_written {BM} (w : Sys BM) (v : Viper) :
  fst (RunE w v) = None
  ↔ ∃ name data perm, In (EvWriteFile name data perm None) (snd (RunE w v)).
Proof.
  destruct (RunE w v) as [res tr] eqn:Hrun. cbn [fst snd].
  on_paths Hrun; try release; case_write_result.
  all: split; [intros Hres; try discriminate Hres
              | intros (? & ? & ? & Hin); split_In; try reflexivity].
  all: eexists _, _, _; find_In.
Qed.

(** X5.  What is written to the signature file is what the signing service
    returned, byte for byte, and nothing is written unless it answered
    without error. *)
Theorem written_bytes_are_the_signature {BM} (w : Sys BM) (v : Viper)
    (res : error) (tr : list (Event BM)) (name : string) (data : bytes)
    (perm : N) (r : error) :
  RunE w v = (res, tr) →
  In (EvWriteFile name data perm r) tr →
  ∃ cfg, In (EvPersonalize cfg (data, None)) tr.
Proof.
  intros Hrun Hin. on_paths Hrun; try release; split_In.
  all: eexists; find_In.
Qed.

(** X9.  A request reaches the signing service only for a manifest that was
    read and parsed without error; it carries that manifest, the nonce, the
    proxy and the TLS option of the flags. *)
Theorem request_carries_manifest_and_options {BM} (w : Sys BM) (v : Viper)
    (res : error) (tr : list (Event BM)) (cfg : PersonalConfig BM)
    (r : bytes * error) :
  RunE w v = (res, tr) →
  In (EvPersonalize cfg r) tr →
  Proxy cfg = sign_proxy v ∧ Insecure cfg = sign_insecure v
  ∧ Nonce cfg = sign_nonce v
  ∧ ∃ p data,
      In (EvReadFile p (data, None)) tr
      ∧ plist_ParseBuildManifest w data = (BuildManifest_ cfg, None).
Proof.
  intros Hrun Hin. on_paths Hrun; try release; split_In.
  all: repeat (split; [reflexivity |]).
  all: eexists _, _; (split; [find_In | eassumption]).
Qed.

(** X6.  The calls of the body come in the order of the source, each at most
    once: stat, mount, read, sign, mkdir, write.  In particular the signing
    service is never asked twice. *)
Theorem calls_follow_the_pipeline {BM} (w : Sys BM) (v : Viper) :
  increasing (omap stage (snd (RunE w v))) = true.
Proof.
  destruct (RunE w v) as [res tr] eqn:Hrun. cbn [snd].
  on_paths Hrun; try release.
  all: reflexivity.
Qed.

(** X7.  A failed mount, read, signing call, mkdir or write is the last call
    of the body: no later stage is entered. *)
Theorem failure_stops_the_pipeline {BM} (w : Sys BM) (v : Viper) :
  stops_at_failure (snd (RunE w v)) = true.
Proof.
  destruct (RunE w v) as [res tr] eqn:Hrun. cbn [snd].
  on_paths Hrun; try release.
  all: try match goal with
           | |- context [EvWriteFile _ _ _ ?werr] => is_var werr; destruct werr
           end.
  all: reflexivity.
Qed.

(** ** The error returned *)

Lemma errors_Is_wrapped (prefix : string) (e target : errval) :
  errors_Is (Some e) target = true →
  errors_Is (Some (fmt_Errorf_w prefix e)) target = true.
Proof.
  cbn [errors_Is fmt_Errorf_w errors_Is_val]. intros He.
  case_decide; [reflexivity | exact He].
Qed.

(** X8.  When a mount, read, signing call, mkdir or write fails, the error
    returned wraps the error of that call: the message ends with the message
    of the cause, and [errors.Is] finds in it whatever it finds in the
    cause. *)
Theorem returned_error_wraps_the_cause {BM} (w : Sys BM) (v : Viper)
    (res : error) (tr : list (Event BM)) (ev : Event BM) (e : errval) :
  RunE w v = (res, tr) →
  In ev tr →
  failure_of ev = Some e →
  ∃ ctx,
    res = Some (wrapError (ctx +:+ Error e) e)
    ∧ ∀ target, errors_Is (Some e) target = true → errors_Is res target = true.
Proof.
  intros Hrun Hin Hfail. on_paths Hrun; try release.
  all: cbn [app] in Hin; which_event Hin.
  all: cbn [failure_of] in Hfail; try discriminate Hfail.
  all: first [injection Hfail as -> | subst].
  all: eexists; (split; [reflexivity |]); intros target;
       apply errors_Is_wrapped.
Qed.

(** X11.  When the output directory cannot be created the error returned
    names that directory, and no file is written. *)
Theorem mkdir_failure_names_directory {BM} (w : Sys BM) (v : Viper)
    (res : error) (tr : list (Event BM)) (dir : string) (perm : N)
    (e : errval) :
  RunE w v = (res, tr) →
  In (EvMkdirAll dir perm (Some e)) tr →
  dir = sign_output v
  ∧ res = Some (fmt_Errorf_w
                  ("failed to create output folder '" +:+ dir +:+ "': ") e)
  ∧ (∀ err, res = Some err → mentions dir (Error err) = true)
  ∧ forallb (fun x => match x with EvWriteFile _ _ _ _ => false | _ => true end)
      tr = true.
Proof.
  intros Hrun Hin. on_paths Hrun; try release; split_In.
  all: split; [reflexivity |]; split; [reflexivity |]; split; [| reflexivity].
  all: intros err [= <-]; unfold mkdir_failed; cbn [Error fmt_Errorf_w].
  all: rewrite !append_assoc; apply mentions_app_r, mentions_here.
Qed.

(** ** The set-up of the logger *)

(** X10.  The level of the logger is raised to debug only under [verbose],
    the colours follow [color], and both are set before anything else and
    never again. *)
Theorem logger_is_set_up_first {BM} (w : Sys BM) (v : Viper) :
  ∃ rest,
    snd (RunE w v)
    = (if verbose v then [EvSetLevel DebugLevel] else [])
      ++ EvNoColor (negb (color v)) :: rest
    ∧ forallb (fun e => negb (is_setup e)) rest = true.
Proof.
  destruct (RunE w v) as [res tr] eqn:Hrun. cbn [snd].
  on_paths Hrun; try release; cbn [app].
  all: eexists; split; reflexivity.
Qed.

(** ** The command line *)

(** X13.  Since [--xcode] has a default, a command line that gives
    [--manifest] alone is rejected as giving both sources, before anything is
    touched. *)
Theorem manifest_flag_alone_is_rejected {BM} (w : Sys BM) (c : CommandLine)
    (m : string) :
  flag_xcode c = None → flag_manifest c = Some m → m ≠ "" →
  RunE w (init c) = (Some err_both, preamble (init c)).
Proof.
  intros Hx Hm Hne.
  assert (Hxc : sign_xcode (init c) = "/Applications/Xcode.app")
    by (cbn; rewrite Hx; reflexivity).
  assert (Hmf : sign_manifest (init c) = m) by (cbn; rewrite Hm; reflexivity).
  destruct (RunE w (init c)) as [res tr] eqn:Hrun.
  on_paths Hrun; try reflexivity.
  all: rewrite ?Hxc, ?Hmf in *; absurd_flags.
Qed.

(** X15.  The manifest file of [--manifest] is the first thing read only
    when [--xcode] is given as the empty string. *)
Theorem manifest_file_needs_empty_xcode_flag {BM} (w : Sys BM)
    (c : CommandLine) (res : error) (tr rest : list (Event BM)) (p : string)
    (r : bytes * error) :
  RunE w (init c) = (res, tr) →
  tr = preamble (init c) ++ EvReadFile p r :: rest →
  flag_xcode c = Some "" ∧ flag_manifest c = Some p ∧ p ≠ "".
Proof.
  intros Hrun.
  assert (Hflags :
    sign_xcode (init c) = "" → sign_manifest (init c) ≠ "" →
    sign_manifest (init c) = p →
    flag_xcode c = Some "" ∧ flag_manifest c = Some p ∧ p ≠ "").
  { unfold init; cbn [sign_xcode sign_manifest].
    destruct (flag_xcode c) as [x |], (flag_manifest c) as [m |]; cbn;
      intros; simplify_eq; auto. }
  on_paths Hrun; try release; intros Htr; cbn [app] in Htr; simplify_eq.
  all: apply Hflags; auto.
Qed.

(** X16.  A command line that lacks one of the identity flags is rejected
    with a configuration error before anything is touched. *)
Theorem missing_identity_flag_is_rejected {BM} (w : Sys BM) (c : CommandLine) :
  flag_board_id c = None ∨ flag_chip_id c = None ∨ flag_ecid c = None
  ∨ flag_nonce c = None →
  ∃ e, RunE w (init c) = (Some e, preamble (init c)) ∧ ConfigurationError e.
Proof.
  intros Hmiss.
  assert (Hid : identity_missing (init c)).
  { unfold identity_missing, init; cbn.
    destruct Hmiss as [-> | [-> | [-> | ->]]]; cbn; auto. }
  destruct (RunE w (init c)) as [res tr] eqn:Hrun.
  on_paths Hrun; try absurd_flags.
  all: eexists; (split; [reflexivity |]); unfold ConfigurationError; auto.
Qed.

(** ** A manifest that does not parse *)

(** X17.  When the manifest was read but does not parse, the error returned
    wraps the one of the parser and the run stops there: the signing service
    is not called and nothing is written. *)
Theorem parse_failure_stops_before_signing {BM} (w : Sys BM) (v : Viper)
    (res : error) (tr : list (Event BM)) (p : string) (data : bytes)
    (bm : option BM) (e : errval) :
  RunE w v = (res, tr) →
  In (EvReadFile p (data, None)) tr →
  plist_ParseBuildManifest w data = (bm, Some e) →
  res = Some (fmt_Errorf_w "failed to parse BuildManifest.plist: " e)
  ∧ forallb (fun x => match stage x with
                      | Some n => (n <=? 3)%nat
                      | None => true
                      end) tr = true.
Proof.
  intros Hrun Hin Hparse. on_paths Hrun; try release; split_In.
  all: try congruence.
  all: match goal with
       | H1 : plist_ParseBuildManifest _ _ = _,
         H2 : plist_ParseBuildManifest _ _ = _ |- _ =>
           rewrite H1 in H2; injection H2 as -> ->
       end.
  all: split; reflexivity.
Qed.

(** ** More concrete runs *)

Ltac complete_identity := intros [H | [H | [H | H]]]; discriminate H.

Lemma manifest_branch_reads_given_path_witness :
  let run := RunE (scripted all_fine) from_manifest in
  (sign_xcode from_manifest = "" ∧ sign_manifest from_manifest ≠ ""
   ∧ ¬ identity_missing from_manifest)
  ∧ (∃ r rest,
       snd run = preamble from_manifest ++ EvReadFile "BuildManifest.plist" r :: rest)
  ∧ forallb (fun e => negb (about_image e)) (snd run) = true
  ∧ release_steps (snd run) = 0.
Proof.
  cbn zeta.
  assert (Hid : ¬ identity_missing from_manifest) by complete_identity.
  split; [split; [reflexivity | split; [discriminate | exact Hid]] |].
  apply (manifest_branch_reads_given_path (scripted all_fine) from_manifest
           (fst (RunE (scripted all_fine) from_manifest))).
  - reflexivity.
  - discriminate.
  - exact Hid.
  - vm_compute; reflexivity.
Defined.

Lemma mount_failure_is_terminal_witness :
  let run := RunE (scripted mount_fails) from_xcode in
  let dmg := "/Applications/Xcode.app/Contents/Resources/CoreDeviceDDIs/iOS_DDI.dmg" in
  In (EvMountDMG dmg ("", false, Some EBUSY)) (snd run)
  ∧ fst run = Some (fmt_Errorf_w "failed to mount iOS_DDI.dmg: " EBUSY)
  ∧ last (snd run) = Some (EvMountDMG dmg ("", false, Some EBUSY))
  ∧ unmount_calls (snd run) = 0 ∧ release_steps (snd run) = 0.
Proof.
  cbn zeta. split; [pick_In |].
  apply (mount_failure_is_terminal (scripted mount_fails) from_xcode).
  - vm_compute; reflexivity.
  - pick_In.
Defined.

Lemma release_runs_once_on_success_witness :
  let run := RunE (scripted all_fine) from_xcode in
  let dmg := "/Applications/Xcode.app/Contents/Resources/CoreDeviceDDIs/iOS_DDI.dmg" in
  let mp := "/private/tmp/ddi" in
  run = (None, snd run)
  ∧ In (EvMountDMG dmg (mp, false, None)) (snd run)
  ∧ ∃ body name sig r rel,
      snd run = body ++ EvLog DebugLevel 2 ("Unmounting " +:+ dmg)
                        :: EvUnmount mp false r :: rel
      ∧ last body = Some (EvWriteFile name sig perm_0644 None)
      ∧ release_steps body = 0 ∧ unmount_calls body = 0
      ∧ release_steps (snd run) = 1.
Proof.
  cbn zeta.
  split; [vm_compute; reflexivity |]. split; [pick_In |].
  apply (release_runs_once_on_success (scripted all_fine) from_xcode).
  - vm_compute; reflexivity.
  - pick_In.
Defined.

Lemma written_bytes_are_the_signature_witness :
  let run := RunE (scripted all_fine) from_manifest in
  In (EvWriteFile "100.200.300.personalized.signature" [x01; x02; x03]
        perm_0644 None) (snd run)
  ∧ ∃ cfg, In (EvPersonalize cfg ([x01; x02; x03], None)) (snd run).
Proof.
  cbn zeta. split; [pick_In |].
  apply (written_bytes_are_the_signature (scripted all_fine) from_manifest
           (fst (RunE (scripted all_fine) from_manifest)) _
           "100.200.300.personalized.signature" _ perm_0644 None).
  - vm_compute; reflexivity.
  - pick_In.
Defined.

Lemma returned_error_wraps_the_cause_witness :
  let run := RunE (scripted read_fails) from_xcode in
  let ev := EvReadFile "/private/tmp/ddi/Restore/BuildManifest.plist"
              ([], Some EACCES) in
  In ev (snd run)
  ∧ failure_of ev = Some EACCES
  ∧ ∃ ctx,
      fst run = Some (wrapError (ctx +:+ Error EACCES) EACCES)
      ∧ ∀ target, errors_Is (Some EACCES) target = true →
                  errors_Is (fst run) target = true.
Proof.
  cbn zeta. split; [pick_In |]. split; [reflexivity |].
  apply (returned_error_wraps_the_cause (scripted read_fails) from_xcode _
           (snd (RunE (scripted read_fails) from_xcode))
           (EvReadFile "/private/tmp/ddi/Restore/BuildManifest.plist"
              ([], Some EACCES))).
  - vm_compute; reflexivity.
  - pick_In.
  - reflexivity.
Defined.

Lemma request_carries_manifest_and_options_witness :
  let run := RunE (scripted all_fine) from_manifest in
  let cfg := personal_config from_manifest (Some [x3c; x3f]) in
  In (EvPersonalize cfg ([x01; x02; x03], None)) (snd run)
  ∧ Proxy cfg = "" ∧ Insecure cfg = false ∧ Nonce cfg = "c0ffee"
  ∧ ∃ p data,
      In (EvReadFile p (data, None)) (snd run)
      ∧ plist_ParseBuildManifest (scripted all_fine) data
        = (BuildManifest_ cfg, None).
Proof.
  cbn zeta. split; [pick_In |].
  apply (request_carries_manifest_and_options (scripted all_fine) from_manifest
           (fst (RunE (scripted all_fine) from_manifest)) _ _
           ([x01; x02; x03], None)).
  - vm_compute; reflexivity.
  - pick_In.
Defined.

Lemma mkdir_failure_names_directory_witness :
  let run := RunE (scripted mkdir_fails) into_out in
  In (EvMkdirAll "out" perm_0750 (Some EACCES)) (snd run)
  ∧ "out" = sign_output into_out
  ∧ fst run = Some (fmt_Errorf_w "failed to create output folder 'out': " EACCES)
  ∧ (∀ err, fst run = Some err → mentions "out" (Error err) = true)
  ∧ forallb (fun x => match x with EvWriteFile _ _ _ _ => false | _ => true end)
      (snd run) = true.
Proof.
  cbn zeta. split; [pick_In |].
  apply (mkdir_failure_names_directory (scripted mkdir_fails) into_out
           _ _ "out" perm_0750 EACCES).
  - vm_compute; reflexivity.
  - pick_In.
Defined.

Lemma unmount_only_what_was_mounted_witness :
  let run := RunE (scripted all_fine) from_xcode in
  In (EvUnmount "/private/tmp/ddi" false None) (snd run)
  ∧ false = false
  ∧ In (EvMountDMG
          (Unix.Join [sign_xcode from_xcode;
                      "/Contents/Resources/CoreDeviceDDIs/iOS_DDI.dmg"])
          ("/private/tmp/ddi", false, None)) (snd run).
Proof.
  cbn zeta. split; [pick_In |].
  apply (unmount_only_what_was_mounted (scripted all_fine) from_xcode
           (fst (RunE (scripted all_fine) from_xcode)) _ _ false None).
  - vm_compute; reflexivity.
  - pick_In.
Defined.

Lemma stat_error_other_than_absent_is_ignored_witness :
  let run := RunE (scripted stat_denied) from_xcode in
  let dmg := "/Applications/Xcode.app/Contents/Resources/CoreDeviceDDIs/iOS_DDI.dmg" in
  In (EvStat dmg (Some (PathError "stat" dmg EACCES))) (snd run)
  ∧ errors_Is (Some (PathError "stat" dmg EACCES)) ErrNotExist = false
  ∧ mount_attempts (snd run) = 1.
Proof.
  cbn zeta. split; [pick_In |]. split; [reflexivity |].
  apply (stat_error_other_than_absent_is_ignored (scripted stat_denied) from_xcode
           (fst (RunE (scripted stat_denied) from_xcode)) _
           "/Applications/Xcode.app/Contents/Resources/CoreDeviceDDIs/iOS_DDI.dmg"
           (Some (PathError "stat"
              "/Applications/Xcode.app/Contents/Resources/CoreDeviceDDIs/iOS_DDI.dmg"
              EACCES))).
  - vm_compute; reflexivity.
  - pick_In.
  - reflexivity.
Defined.

Lemma manifest_flag_alone_is_rejected_witness :
  (flag_xcode manifest_only = None
   ∧ flag_manifest manifest_only = Some "BuildManifest.plist")
  ∧ RunE (scripted all_fine) (init manifest_only)
    = (Some err_both, preamble (init manifest_only)).
Proof.
  split; [split; reflexivity |].
  apply (manifest_flag_alone_is_rejected (scripted all_fine) manifest_only
           "BuildManifest.plist"); [reflexivity | reflexivity | discriminate].
Defined.

Lemma manifest_file_needs_empty_xcode_flag_witness :
  let run := RunE (scripted all_fine) (init manifest_without_xcode) in
  snd run
  = preamble (init manifest_without_xcode)
    ++ EvReadFile "BuildManifest.plist" ([x3c; x3f], None) :: skipn 2 (snd run)
  ∧ flag_xcode manifest_without_xcode = Some ""
  ∧ flag_manifest manifest_without_xcode = Some "BuildManifest.plist"
  ∧ "BuildManifest.plist" ≠ "".
Proof.
  cbn zeta. split; [vm_compute; reflexivity |].
  apply (manifest_file_needs_empty_xcode_flag (scripted all_fine)
           manifest_without_xcode
           (fst (RunE (scripted all_fine) (init manifest_without_xcode)))
           (snd (RunE (scripted all_fine) (init manifest_without_xcode)))
           (skipn 2 (snd (RunE (scripted all_fine) (init manifest_without_xcode))))
           "BuildManifest.plist" ([x3c; x3f], None)).
  - vm_compute; reflexivity.
  - vm_compute; reflexivity.
Defined.

Lemma missing_identity_flag_is_rejected_witness :
  flag_nonce no_nonce = None
  ∧ ∃ e,
      RunE (scripted all_fine) (init no_nonce) = (Some e, preamble (init no_nonce))
      ∧ ConfigurationError e.
Proof.
  split; [reflexivity |].
  apply (missing_identity_flag_is_rejected (scripted all_fine) no_nonce).
  right; right; right; reflexivity.
Defined.

Lemma parse_failure_stops_before_signing_witness :
  let run := RunE (scripted parse_fails) from_manifest in
  let e := errorString "unexpected EOF" in
  In (EvReadFile "BuildManifest.plist" ([x3c; x3f], None)) (snd run)
  ∧ plist_ParseBuildManifest (scripted parse_fails) [x3c; x3f] = (None, Some e)
  ∧ fst run = Some (fmt_Errorf_w "failed to parse BuildManifest.plist: " e)
  ∧ forallb (fun x => match stage x with
                      | Some n => (n <=? 3)%nat
                      | None => true
                      end) (snd run) = true.
Proof.
  cbn zeta. split; [pick_In |]. split; [reflexivity |].
  apply (parse_failure_stops_before_signing (scripted parse_fails) from_manifest
           _ _ "BuildManifest.plist" [x3c; x3f] None).
  - vm_compute; reflexivity.
  - pick_In.
  - reflexivity.
Defined.
